(** * BaseTable / BaseTableDataset (kedro_datasets.databricks._base_table_dataset)

    A shallow embedding of the table descriptor [BaseTable] (a frozen
    dataclass validated in [__post_init__]) and of the load / save /
    exists / describe orchestration of [BaseTableDataset], together with
    the properties the specification states about them.

    Python strings are modelled by [string]; exceptions by the sum type
    [Exn + A]; the Spark session and the logger by explicit state
    passing. *)

From Stdlib Require Import Ascii String List Bool.
From stdpp Require Import list strings gmap.

Local Open Scope string_scope.
Local Open Scope list_scope.

(** ** Exceptions *)

(** Errors the compute engine (pyspark) surfaces.  The source names two
    of them in its [except] clauses; every other exception class the
    engine can raise is [EngineFailure]. *)
Inductive EngineError : Type :=
| ParseException (msg : string)
| AnalysisException (msg : string)
| EngineFailure (msg : string).

Inductive Exn : Type :=
| DatasetError (msg : string)          (* kedro.io.core.DatasetError *)
| KeyError (key : string)
| ValueError (msg : string)
| TypeError (msg : string)
| AttributeError (msg : string)
| AssertionError
| NotImplementedError
| EngineExn (e : EngineError).

Definition result (A : Type) : Type := (Exn + A)%type.

Definition engine_error_str (e : EngineError) : string :=
  match e with
  | ParseException m | AnalysisException m | EngineFailure m => m
  end.

(** [str(exc)]; a [KeyError] prints the repr of its key. *)
Definition exn_str (e : Exn) : string :=
  match e with
  | DatasetError m | ValueError m | TypeError m | AttributeError m => m
  | KeyError k => "'" +:+ k +:+ "'"
  | AssertionError | NotImplementedError => EmptyString
  | EngineExn e => engine_error_str e
  end.

(** ** Characters and the naming pattern *)

Definition in_range (lo hi c : ascii) : bool :=
  Nat.leb (nat_of_ascii lo) (nat_of_ascii c)
  && Nat.leb (nat_of_ascii c) (nat_of_ascii hi).

Definition is_digit (c : ascii) : bool := in_range "0"%char "9"%char c.
Definition is_lower (c : ascii) : bool := in_range "a"%char "z"%char c.
Definition is_upper (c : ascii) : bool := in_range "A"%char "Z"%char c.

(** [\w] restricted to the characters the naming class can consume.
    Python's [\w] on [str] patterns also covers non-ASCII letters; those
    are outside the class [[0-9a-zA-Z_-]], so a name holding one is
    rejected whatever [\b] answers next to it. *)
Definition is_word (c : ascii) : bool :=
  is_digit c || is_lower c || is_upper c || Ascii.eqb c "_"%char.

(** The bracket expression [[0-9a-zA-Z_-]]. *)
Definition naming_class (c : ascii) : bool :=
  is_digit c || is_lower c || is_upper c || Ascii.eqb c "_"%char || Ascii.eqb c "-"%char.

(** The fragment of [re] the source uses: the assertion [\b], a bracket
    expression under a greedy [{lo,}] and concatenation. *)
Inductive regex : Type :=
| WordBoundary
| ClassRepeat (cls : ascii -> bool) (lo : nat)
| Concat (r1 r2 : regex).

(** A matcher position: the character just consumed (none at the start
    of the subject) and the rest of the subject. *)
Definition position : Type := (option ascii * string)%type.

Definition is_word_opt (c : option ascii) : bool :=
  match c with Some c => is_word c | None => false end.

Definition next_char (s : string) : option ascii :=
  match s with String c _ => Some c | EmptyString => None end.

Definition at_word_boundary (p : position) : bool :=
  xorb (is_word_opt (fst p)) (is_word_opt (next_char (snd p))).

(** Every position reachable by consuming 0, 1, 2, ... characters of the
    class, shortest first. *)
Fixpoint class_run (cls : ascii -> bool) (prev : option ascii) (s : string)
  : list position :=
  (prev, s) ::
  match s with
  | String c s' => if cls c then class_run cls (Some c) s' else []
  | EmptyString => []
  end.

(** Backtracking matcher: the positions at which a match of [r] started
    at [p] can end, in the order [re] tries them (greedy repeats give
    the longest run first). *)
Fixpoint match_from (r : regex) (p : position) : list position :=
  match r with
  | WordBoundary => if at_word_boundary p then [p] else []
  | ClassRepeat cls lo => rev (drop lo (class_run cls (fst p) (snd p)))
  | Concat r1 r2 => flat_map (match_from r2) (match_from r1 p)
  end.

Definition at_end (p : position) : bool :=
  match snd p with EmptyString => true | String _ _ => false end.

(** [re.fullmatch(r, s)] seen as a truth value ([None] is falsy). *)
Definition fullmatch (r : regex) (s : string) : bool :=
  existsb at_end (match_from r (None, s)).

(** [_NAMING_REGEX = r"\b[0-9a-zA-Z_-]{1,}\b"] *)
Definition _NAMING_REGEX : regex :=
  Concat WordBoundary (Concat (ClassRepeat naming_class 1) WordBoundary).

(** *** What the pattern accepts, in closed form *)

Fixpoint all_chars (cls : ascii -> bool) (s : string) : bool :=
  match s with
  | EmptyString => true
  | String c s' => cls c && all_chars cls s'
  end.

Fixpoint last_char (prev : option ascii) (s : string) : option ascii :=
  match s with
  | EmptyString => prev
  | String c s' => last_char (Some c) s'
  end.

(** Non-empty, every character in the class, first and last character a
    word character. *)
Definition conforms_to_naming (s : string) : bool :=
  match s with
  | EmptyString => false
  | String c _ =>
      is_word c && all_chars naming_class s && is_word_opt (last_char None s)
  end.

(** The reading "a non-empty single token of word characters and
    hyphens", with no condition on where a hyphen stands. *)
Definition word_or_hyphen_token (s : string) : bool :=
  match s with
  | EmptyString => false
  | String _ _ => all_chars naming_class s
  end.

Fixpoint contains_char (c : ascii) (s : string) : bool :=
  match s with
  | EmptyString => false
  | String d s' => Ascii.eqb c d || contains_char c s'
  end.

(** ** Python values and small helpers *)

#[local] Set Warnings "-register-all".

(** Values of the open-ended configuration (JSON-like Python data). *)
Inductive PyValue : Type :=
| PyNone
| PyBool (b : bool)
| PyInt (n : Z)
| PyStr (s : string)
| PyList (l : list PyValue)
| PyDict (d : list (string * PyValue)).

(** Truthiness of a value. *)
Definition py_truthy (v : PyValue) : bool :=
  match v with
  | PyNone | PyBool false | PyInt 0%Z | PyStr EmptyString
  | PyList [] | PyDict [] => false
  | _ => true
  end.

Definition py_opt_str (o : option string) : PyValue :=
  match o with Some s => PyStr s | None => PyNone end.

(** Truthiness of a [str]: the empty string is falsy. *)
Definition truthy (s : string) : bool :=
  match s with EmptyString => false | String _ _ => true end.

(** Truthiness of a [str | None]. *)
Definition truthy_opt (o : option string) : bool :=
  match o with Some s => truthy s | None => false end.

(** [x in l] on a list of strings. *)
Definition str_in (x : string) (l : list string) : bool :=
  existsb (String.eqb x) l.

(** [sep.join(l)] *)
Definition join (sep : string) (l : list string) : string :=
  String.concat sep l.

(** [d[k]] / [getattr(obj, k, None)] on a table kept in definition order. *)
Fixpoint assoc {A : Type} (k : string) (d : list (string * A)) : option A :=
  match d with
  | [] => None
  | (k', v) :: d' => if String.eqb k k' then Some v else assoc k d'
  end.

(** ** BaseTable *)

Definition _VALID_WRITE_MODES : list string := ["overwrite"; "append"].
Definition _VALID_DATAFRAME_TYPES : list string := ["spark"; "pandas"].
Definition _VALID_FORMATS : list string := ["delta"; "parquet"; "csv"].

(** The fields at their annotated types.  Python does not enforce the
    annotations; a value of another type (a number as table name, say)
    is not a [BaseTable] here. *)
Record BaseTable : Type := {
  format : string;
  database : string;
  catalog : option string;
  table : string;
  write_mode : option string;
  dataframe_type : string;
  owner_group : option string;
  partition_columns : PyValue;
  json_schema : option (list (string * PyValue))
}.

(** [__dataclass_fields__.keys()]: the annotated names of the class body
    in declaration order.  The [ClassVar] pseudo-fields are part of that
    mapping; no validator is named after them. *)
Definition __dataclass_fields__ : list string :=
  ["_NAMING_REGEX"; "_VALID_WRITE_MODES"; "_VALID_DATAFRAME_TYPES";
   "_VALID_FORMATS"; "format"; "database"; "catalog"; "table";
   "write_mode"; "dataframe_type"; "owner_group"; "partition_columns";
   "json_schema"].

Definition _validate_format (t : BaseTable) : result unit :=
  if negb (str_in (format t) _VALID_FORMATS) then
    inl (DatasetError ("Invalid `format` provided: " +:+ format t +:+ ". "
                       +:+ "`format` must be one of: "
                       +:+ join ", " _VALID_FORMATS))
  else inr tt.

Definition _validate_table (t : BaseTable) : result unit :=
  if negb (fullmatch _NAMING_REGEX (table t)) then
    inl (DatasetError "table does not conform to naming")
  else inr tt.

Definition _validate_database (t : BaseTable) : result unit :=
  if negb (fullmatch _NAMING_REGEX (database t)) then
    inl (DatasetError "database does not conform to naming")
  else inr tt.

Definition _validate_catalog (t : BaseTable) : result unit :=
  match catalog t with
  | Some c =>
      if truthy c then
        if negb (fullmatch _NAMING_REGEX c) then
          inl (DatasetError "catalog does not conform to naming")
        else inr tt
      else inr tt
  | None => inr tt
  end.

Definition _validate_write_mode (t : BaseTable) : result unit :=
  match write_mode t with
  | Some m =>
      if negb (str_in m _VALID_WRITE_MODES) then
        inl (DatasetError ("Invalid `write_mode` provided: " +:+ m +:+ ". "
                           +:+ "`write_mode` must be one of: "
                           +:+ join ", " _VALID_WRITE_MODES))
      else inr tt
  | None => inr tt
  end.

Definition _validate_dataframe_type (t : BaseTable) : result unit :=
  if negb (str_in (dataframe_type t) _VALID_DATAFRAME_TYPES) then
    inl (DatasetError ("`dataframe_type` must be one of "
                       +:+ join ", " _VALID_DATAFRAME_TYPES))
  else inr tt.

(** The body reads [self.primary_key], an attribute [BaseTable] does not
    have: calling it on a base table would stop at the attribute
    lookup. *)
Definition _validate_primary_key (t : BaseTable) : result unit :=
  inl (AttributeError "'BaseTable' object has no attribute 'primary_key'").

(** The [_validate_*] methods of the class, by attribute name. *)
Definition BaseTable_methods : list (string * (BaseTable -> result unit)) :=
  [("_validate_format", _validate_format);
   ("_validate_table", _validate_table);
   ("_validate_database", _validate_database);
   ("_validate_catalog", _validate_catalog);
   ("_validate_write_mode", _validate_write_mode);
   ("_validate_dataframe_type", _validate_dataframe_type);
   ("_validate_primary_key", _validate_primary_key)].

(** The loop of [__post_init__] over a list of field names.  Besides the
    outcome it returns the fields whose validator was called, in call
    order. *)
Fixpoint run_validators (names : list string) (t : BaseTable)
  : list string * result unit :=
  match names with
  | [] => ([], inr tt)
  | name :: rest =>
      match assoc ("_validate_" +:+ name) BaseTable_methods with
      | None => run_validators rest t
      | Some method =>
          match method t with
          | inl e => ([name], inl e)
          | inr _ =>
              let '(called, r) := run_validators rest t in (name :: called, r)
          end
      end
  end.

Definition __post_init__ (t : BaseTable) : list string * result unit :=
  run_validators __dataclass_fields__ t.

(** Construction of the frozen dataclass: the field values are stored,
    [__post_init__] runs, and the object is handed out only if it
    returns. *)
Definition BaseTable_new (t : BaseTable) : result BaseTable :=
  match snd (__post_init__ t) with
  | inl e => inl e
  | inr _ => inr t
  end.

Definition full_table_location (t : BaseTable) : option string :=
  match catalog t with
  | Some c =>
      if truthy c && truthy (database t) && truthy (table t) then
        Some ("`" +:+ c +:+ "`.`" +:+ database t +:+ "`.`" +:+ table t +:+ "`")
      else if truthy (database t) && truthy (table t) then
        Some ("`" +:+ database t +:+ "`.`" +:+ table t +:+ "`")
      else None
  | None =>
      if truthy (database t) && truthy (table t) then
        Some ("`" +:+ database t +:+ "`.`" +:+ table t +:+ "`")
      else None
  end.

(** ** Dataframes and the compute engine *)

(** A dataframe is an ordered sequence of labelled columns.  Cell typing
    is the engine's business and is not modelled. *)
Definition Frame : Type := list (string * list Z).

Inductive DataKind : Type := SparkKind | PandasKind.

(** [pyspark.sql.DataFrame | pandas.DataFrame] *)
Record DataFrame : Type := { kind : DataKind; frame : Frame }.


Inductive DataType : Type := SparkType (simpleString : string).

(** [StructField]: [nullable] is kept as given, [field_metadata] is
    [metadata or {}]. *)
Record StructField : Type := {
  name : string;
  dataType : DataType;
  nullable : PyValue;
  field_metadata : PyValue
}.

Record StructType : Type := { fields : list StructField }.

Definition fieldNames (st : StructType) : list string := map name (fields st).

(** [bool(schema)] for [StructType | None]: a [StructType] has a
    [__len__], so one without fields is falsy. *)
Definition schema_truthy (o : option StructType) : bool :=
  match o with
  | Some st => match fields st with [] => false | _ :: _ => true end
  | None => false
  end.

(** A row of [SHOW TABLES]. *)
Record Row : Type :=
  { namespace : string; tableName : string; isTemporary : bool }.

(** [data.write] after [format], [mode] and [option] calls. *)
Record DataFrameWriter : Type := {
  w_format : option string;
  w_mode : option string;
  w_options : list (string * string)
}.

Definition writer_format (f : string) (w : DataFrameWriter) : DataFrameWriter :=
  {| w_format := Some f; w_mode := w_mode w; w_options := w_options w |}.
Definition writer_mode (m : string) (w : DataFrameWriter) : DataFrameWriter :=
  {| w_format := w_format w; w_mode := Some m; w_options := w_options w |}.
Definition writer_option (k v : string) (w : DataFrameWriter) : DataFrameWriter :=
  {| w_format := w_format w; w_mode := w_mode w;
     w_options := w_options w ++ [(k, v)] |}.
Definition new_writer : DataFrameWriter :=
  {| w_format := None; w_mode := None; w_options := [] |}.

(** The session obtained from [_get_spark()], as the source uses it:
    queries, table reads and table writes act on a session state and may
    fail; how a JSON type description is decoded is the engine's too, and
    so is the resolver that tells whether a column name answers to a
    requested name ([spark.sql.caseSensitive]). *)
Record Engine : Type := {
  Session : Type;
  parse_datatype : PyValue -> result DataType;
  resolver : string -> string -> bool;
  spark_sql : string -> Session -> (EngineError + list Row) * Session;
  spark_table : option string -> Session -> (EngineError + Frame) * Session;
  spark_saveAsTable :
    DataFrameWriter -> string -> Frame -> Session -> (EngineError + unit) * Session
}.

(** The columns labelled [c]. *)
Definition columns_named (c : string) (f : Frame) : Frame :=
  List.filter (fun col => String.eqb (fst col) c) f.

Fixpoint collect {A B : Type} (f : A -> result B) (l : list A)
  : result (list B) :=
  match l with
  | [] => inr []
  | x :: l' =>
      match f x with
      | inl e => inl e
      | inr y =>
          match collect f l' with
          | inl e => inl e
          | inr ys => inr (y :: ys)
          end
      end
  end.

(** The columns of [f] whose name answers to [c] under the resolver. *)
Definition columns_resolving (same : string -> string -> bool) (c : string)
    (f : Frame) : Frame :=
  List.filter (fun col => same (fst col) c) f.

(** [df.select] of the names [cols] on a native dataframe: each name
    must resolve to exactly one column, and the selected column carries
    the name as it was requested. *)
Definition spark_select (same : string -> string -> bool)
    (cols : list string) (f : Frame) : result Frame :=
  collect (fun c =>
             match columns_resolving same c f with
             | [col] => inr (c, snd col)
             | [] => inl (EngineExn (AnalysisException ("cannot resolve " +:+ c)))
             | _ => inl (EngineExn (AnalysisException ("ambiguous reference " +:+ c)))
             end) cols.

(** Spark's default resolver compares names without regard to case
    (here: of the ASCII letters). *)
Definition ascii_lower (c : ascii) : ascii :=
  if is_upper c then ascii_of_nat (nat_of_ascii c + 32) else c.

Fixpoint lower (s : string) : string :=
  match s with
  | EmptyString => EmptyString
  | String c s' => String (ascii_lower c) (lower s')
  end.

Definition equal_ignoring_case (a b : string) : bool :=
  String.eqb (lower a) (lower b).

(** [repr] of a list of labels. *)
Definition repr_labels (l : list string) : string :=
  "[" +:+ join ", " (map (fun c => "'" +:+ c +:+ "'") l) +:+ "]".

Definition is_missing (f : Frame) (c : string) : bool :=
  match columns_named c f with [] => true | _ :: _ => false end.

(** [df.loc[:, cols]] on a local dataframe: the columns carrying each
    label (labels are compared as written), in the order of [cols].  If
    some label has no column a [KeyError] is raised whose argument is a
    message about the missing labels; its wording is pandas' own and
    nothing below depends on it. *)
Definition pandas_loc (cols : list string) (f : Frame) : result Frame :=
  match List.filter (is_missing f) cols with
  | [] => inr (flat_map (fun c => columns_named c f) cols)
  | missing =>
      inl (KeyError
             (if Nat.eqb (length missing) (length cols) then
                "None of [Index(" +:+ repr_labels cols
                +:+ ", dtype='object')] are in the [columns]"
              else repr_labels (remove_dups missing) +:+ " not in index"))
  end.

(** [spark.createDataFrame(pdf, schema)]: without a schema the columns
    keep their labels (types are inferred); with one, the columns take
    the schema's names by position, columns beyond the last field being
    left out. *)
Definition createDataFrame (pdf : Frame) (schema : option StructType)
  : result Frame :=
  match schema with
  | None => inr pdf
  | Some st =>
      if Nat.leb (length (fields st)) (length pdf) then
        inr (zip (fieldNames st) (map snd pdf))
      else inl (ValueError "Length of object does not match with length of fields")
  end.

(** *** Decoding a JSON schema *)

Section Schema.
Context (E : Engine).

(** [StructField.fromJson] (pyspark 3.5): the four entries are looked
    up in the order name, type, nullable, metadata, each with
    [json[...]], before the field is built. *)
Definition StructField_fromJson (j : PyValue) : result StructField :=
  match j with
  | PyDict d =>
      match assoc "name" d with
      | None => inl (KeyError "name")
      | Some n =>
          match assoc "type" d with
          | None => inl (KeyError "type")
          | Some ty =>
              match parse_datatype E ty with
              | inl e => inl e
              | inr dt =>
                  match assoc "nullable" d with
                  | None => inl (KeyError "nullable")
                  | Some nb =>
                      match assoc "metadata" d with
                      | None => inl (KeyError "metadata")
                      | Some md =>
                          match n with
                          | PyStr s =>
                              inr {| name := s; dataType := dt; nullable := nb;
                                     field_metadata :=
                                       if py_truthy md then md else PyDict [] |}
                          | _ => inl AssertionError
                          end
                      end
                  end
              end
          end
      end
  | _ => inl (TypeError "field description is not a mapping")
  end.

(** [StructType.fromJson(json)]:
    [StructType([StructField.fromJson(f) for f in json["fields"]])] *)
Definition StructType_fromJson (json : list (string * PyValue))
  : result StructType :=
  match assoc "fields" json with
  | None => inl (KeyError "fields")
  | Some (PyList l) =>
      match collect StructField_fromJson l with
      | inl e => inl e
      | inr fs => inr {| fields := fs |}
      end
  | Some (PyDict []) | Some (PyStr EmptyString) => inr {| fields := [] |}
  | Some _ => inl (TypeError "fields is not a sequence of mappings")
  end.

(** [BaseTable.schema] *)
Definition schema (t : BaseTable) : result (option StructType) :=
  match json_schema t with
  | None => inr None
  | Some json =>
      match StructType_fromJson json with
      | inr st => inr (Some st)
      | inl (KeyError k) => inl (DatasetError (exn_str (KeyError k)))
      | inl (ValueError m) => inl (DatasetError (exn_str (ValueError m)))
      | inl e => inl e
      end
  end.
End Schema.

(** ** BaseTableDataset *)

Record BaseTableDataset : Type := {
  _table : BaseTable;
  metadata : PyValue;
  kwargs : gmap string PyValue
}.

(** The keyword arguments of [BaseTableDataset.__init__]; [arg_kwargs]
    collects the keywords that name no parameter. *)
Record InitArgs : Type := {
  arg_table : string;
  arg_catalog : option string;
  arg_database : string;
  arg_write_mode : option string;
  arg_dataframe_type : string;
  arg_schema : option (list (string * PyValue));
  arg_partition_columns : PyValue;
  arg_owner_group : option string;
  arg_metadata : PyValue;
  arg_kwargs : gmap string PyValue
}.

(** [_create_table] of the base class. *)
Definition _create_table (args : InitArgs) : result BaseTable :=
  inl NotImplementedError.

(** [__init__], over the [_create_table] a subclass supplies.  The call
    into the host framework's constructor only registers [_exists] and
    is left out. *)
Definition __init__ (create_table : InitArgs -> result BaseTable)
    (args : InitArgs) : result BaseTableDataset :=
  match create_table args with
  | inl e => inl e
  | inr t =>
      inr {| _table := t; metadata := arg_metadata args;
             kwargs := arg_kwargs args |}
  end.

(** What the engine and the dataframes were asked to do, in call order. *)
Inductive Call : Type :=
| CallSql (query : string)
| CallTable (location : option string)
| CallToPandas
| CallLoc (cols : list string)
| CallSelect (cols : list string)
| CallCreateDataFrame (data : Frame) (schema : option StructType)
| CallSaveAsTable (w : DataFrameWriter) (location : string) (data : Frame).

Section Gateway.
Context (E : Engine).

(** The ambient state the methods act on: the engine session, the
    calls made so far and the warnings logged so far. *)
Record World : Type := {
  session : Session E;
  calls : list Call;
  warnings : list string
}.

(** State and exceptions. *)
Definition M (A : Type) : Type := World -> result A * World.

Definition ret {A} (a : A) : M A := fun w => (inr a, w).
Definition raise {A} (e : Exn) : M A := fun w => (inl e, w).
Definition lift {A} (r : result A) : M A := fun w => (r, w).
Definition bind {A B} (m : M A) (k : A -> M B) : M B :=
  fun w =>
    match m w with
    | (inl e, w') => (inl e, w')
    | (inr a, w') => k a w'
    end.

Notation "x <- m ;; k" := (bind m (fun x => k))
  (at level 20, m at level 99, k at level 200, only parsing).

(** [try: body except (classes): handler] *)
Definition try_except {A} (body : M A) (caught : Exn -> bool)
    (handler : Exn -> M A) : M A :=
  fun w =>
    match body w with
    | (inl e, w') => if caught e then handler e w' else (inl e, w')
    | (inr a, w') => (inr a, w')
    end.

Definition called (c : Call) : M unit :=
  fun w => (inr tt, {| session := session w; calls := calls w ++ [c];
                       warnings := warnings w |}).

(** [logger.warning] *)
Definition warning (msg : string) : M unit :=
  fun w => (inr tt, {| session := session w; calls := calls w;
                       warnings := warnings w ++ [msg] |}).

Definition on_session {A} (op : Session E -> (EngineError + A) * Session E)
  : M A :=
  fun w =>
    let '(r, s') := op (session w) in
    (match r with inl e => inl (EngineExn e) | inr a => inr a end,
     {| session := s'; calls := calls w; warnings := warnings w |}).

(** [_get_spark().sql(query)] *)
Definition sql (query : string) : M (list Row) :=
  _ <- called (CallSql query) ;; on_session (spark_sql E query).

(** [_get_spark().table(location)] *)
Definition read_table (location : option string) : M DataFrame :=
  _ <- called (CallTable location) ;;
  f <- on_session (spark_table E location) ;;
  ret {| kind := SparkKind; frame := f |}.

(** [data.toPandas()] *)
Definition toPandas (data : DataFrame) : M DataFrame :=
  match kind data with
  | SparkKind =>
      _ <- called CallToPandas ;;
      ret {| kind := PandasKind; frame := frame data |}
  | PandasKind =>
      raise (AttributeError "'DataFrame' object has no attribute 'toPandas'")
  end.

(** [data.loc[:, cols]] *)
Definition loc (data : DataFrame) (cols : list string) : M Frame :=
  match kind data with
  | PandasKind =>
      _ <- called (CallLoc cols) ;; lift (pandas_loc cols (frame data))
  | SparkKind =>
      raise (AttributeError "'DataFrame' object has no attribute 'loc'")
  end.

(** [data.select] of the names [cols] *)
Definition select (data : DataFrame) (cols : list string) : M DataFrame :=
  match kind data with
  | SparkKind =>
      _ <- called (CallSelect cols) ;;
      f <- lift (spark_select (resolver E) cols (frame data)) ;;
      ret {| kind := SparkKind; frame := f |}
  | PandasKind =>
      raise (AttributeError "'DataFrame' object has no attribute 'select'")
  end.

(** [_get_spark().createDataFrame(data, schema=...)]: made for a local
    dataframe; a native one is refused. *)
Definition create_native (data : DataFrame) (sch : option StructType)
  : M DataFrame :=
  _ <- called (CallCreateDataFrame (frame data) sch) ;;
  match kind data with
  | PandasKind =>
      f <- lift (createDataFrame (frame data) sch) ;;
      ret {| kind := SparkKind; frame := f |}
  | SparkKind => raise (TypeError "data is already a DataFrame")
  end.

(** [writer.saveAsTable(location)] for the writer of [data] *)
Definition saveAsTable (w : DataFrameWriter) (data : Frame)
    (location : string) : M unit :=
  _ <- called (CallSaveAsTable w location data) ;;
  on_session (spark_saveAsTable E w location data).

(** [data.write]: only a native dataframe has a writer. *)
Definition write (data : DataFrame) : M DataFrameWriter :=
  match kind data with
  | SparkKind => ret new_writer
  | PandasKind =>
      raise (AttributeError "'DataFrame' object has no attribute 'write'")
  end.

(** [x or ""] *)
Definition or_empty (o : option string) : string :=
  match o with
  | Some s => if truthy s then s else EmptyString
  | None => EmptyString
  end.

Definition _load (self : BaseTableDataset) : M DataFrame :=
  data <- read_table (full_table_location (_table self)) ;;
  if String.eqb (dataframe_type (_table self)) "pandas" then toPandas data
  else ret data.

Definition _save_append (self : BaseTableDataset) (data : DataFrame)
  : M unit :=
  w <- write data ;;
  saveAsTable (writer_mode "append" (writer_format (format (_table self)) w))
    (frame data) (or_empty (full_table_location (_table self))).

Definition _save_overwrite (self : BaseTableDataset) (data : DataFrame)
  : M unit :=
  w <- write data ;;
  let table := writer_format (format (_table self)) w in
  let table :=
    match write_mode (_table self) with
    | Some m =>
        if String.eqb m "overwrite" then
          writer_option "overwriteSchema" "true" (writer_mode "overwrite" table)
        else table
    | None => table
    end in
  saveAsTable table (frame data)
    (or_empty (full_table_location (_table self))).

(** The [_save_*] methods this class defines, by attribute name. *)
Definition BaseTableDataset_methods
  : list (string * (BaseTableDataset -> DataFrame -> M unit)) :=
  [("_save_append", _save_append); ("_save_overwrite", _save_overwrite)].

Definition read_only_message : string :=
  "'save' can not be used in read-only mode. "
  +:+ "Change 'write_mode' value to " +:+ join ", " _VALID_WRITE_MODES.

(** The message ends with the [repr] of the list of valid modes. *)
Definition unsupported_write_mode_message (m : string) : string :=
  "Invalid `write_mode` provided: " +:+ m +:+ ". "
  +:+ "`write_mode` must be one of: " +:+ "['overwrite', 'append']".

(** Lines 288-299 of [_save]: match the data to the schema and make it
    a native dataframe. *)
Definition prepare (self : BaseTableDataset) (data : DataFrame)
  : M DataFrame :=
  sch <- lift (schema E (_table self)) ;;
  if schema_truthy sch then
    let cols := match sch with Some st => fieldNames st | None => [] end in
    if String.eqb (dataframe_type (_table self)) "pandas" then
      sub <- loc data cols ;;
      sch' <- lift (schema E (_table self)) ;;
      create_native {| kind := PandasKind; frame := sub |} sch'
    else select data cols
  else if String.eqb (dataframe_type (_table self)) "pandas" then
    create_native data None
  else ret data.

(** Lines 301-309 of [_save]: late-bound dispatch on the mode's name. *)
Definition dispatch (self : BaseTableDataset) (m : string)
    (data : DataFrame) : M unit :=
  match assoc ("_save_" +:+ m) BaseTableDataset_methods with
  | None => raise (DatasetError (unsupported_write_mode_message m))
  | Some method => method self data
  end.

Definition _save (self : BaseTableDataset) (data : DataFrame) : M unit :=
  match write_mode (_table self) with
  | None => raise (DatasetError read_only_message)
  | Some m =>
      data' <- prepare self data ;;
      dispatch self m data'
  end.

(** The fixed items of the dict display of [_describe]. *)
Definition descriptor_items (t : BaseTable) : list (string * PyValue) :=
  [("catalog", py_opt_str (catalog t));
   ("database", PyStr (database t));
   ("table", PyStr (table t));
   ("write_mode", py_opt_str (write_mode t));
   ("dataframe_type", PyStr (dataframe_type t));
   ("owner_group", py_opt_str (owner_group t));
   ("partition_columns", partition_columns t)].

(** The dict display lists the seven fixed items and then unpacks
    [self.kwargs]: an item of the bag replaces a fixed item with the
    same key.  ([∪] keeps the left operand's value on a shared key.) *)
Definition _describe (self : BaseTableDataset) : gmap string PyValue :=
  kwargs self ∪ list_to_map (descriptor_items (_table self)).

(** [except (ParseException, AnalysisException)] *)
Definition parse_or_analysis (e : Exn) : bool :=
  match e with
  | EngineExn (ParseException _) | EngineExn (AnalysisException _) => true
  | _ => false
  end.

Definition use_catalog_query (c : string) : string :=
  "USE CATALOG `" +:+ c +:+ "`".

Definition show_tables_query (db : string) : string :=
  "SHOW TABLES IN `" +:+ db +:+ "`".

Definition catalog_warning (c : string) (exc : Exn) : string :=
  "catalog " +:+ c +:+ " not found or unity not enabled. Error message: "
  +:+ exn_str exc.

Definition table_warning (exc : Exn) : string :=
  "error occured while trying to find table: " +:+ exn_str exc.

(** The number of rows left by [filter] with the condition
    [tableName = '<table>']. *)
Definition count_named (tbl : string) (rows : list Row) : nat :=
  length (List.filter (fun r => String.eqb (tableName r) tbl) rows).

(** Lines 360-368 of [_exists]. *)
Definition switch_catalog (self : BaseTableDataset) : M unit :=
  match catalog (_table self) with
  | Some c =>
      if truthy c then
        try_except
          (_ <- sql (use_catalog_query c) ;; ret tt)
          parse_or_analysis
          (fun exc => warning (catalog_warning c exc))
      else ret tt
  | None => ret tt
  end.

(** Lines 369-379 of [_exists]. *)
Definition find_table (self : BaseTableDataset) : M bool :=
  try_except
    (rows <- sql (show_tables_query (database (_table self))) ;;
     ret (Nat.ltb 0 (count_named (table (_table self)) rows)))
    parse_or_analysis
    (fun exc => _ <- warning (table_warning exc) ;; ret false).

Definition _exists (self : BaseTableDataset) : M bool :=
  _ <- switch_catalog self ;; find_table self.

End Gateway.

Arguments session {E} _.
Arguments calls {E} _.
Arguments warnings {E} _.

(** * Definitions used in the statements *)

(** ** Validation *)

Definition validator_of (field : string)
  : option (BaseTable -> result unit) :=
  assoc ("_validate_" +:+ field) BaseTable_methods.

Definition has_validator (field : string) : bool :=
  match validator_of field with Some _ => true | None => false end.

(** The declared fields that have a validator, in declaration order. *)
Definition validated_fields : list string :=
  ["format"; "database"; "catalog"; "table"; "write_mode"; "dataframe_type"].

Definition passes (t : BaseTable) (field : string) : Prop :=
  forall m, validator_of field = Some m -> m t = inr tt.

(** A descriptor that came out of the constructor. *)
Definition constructed (t : BaseTable) : Prop := BaseTable_new t = inr t.

(** The other four validated fields are in order. *)
Definition other_fields_valid (t : BaseTable) : Prop :=
  _validate_format t = inr tt /\ _validate_catalog t = inr tt
  /\ _validate_write_mode t = inr tt /\ _validate_dataframe_type t = inr tt.


(** ** Descriptors to compute with *)

Definition sample_table : BaseTable :=
  {| format := "delta"; database := "d"; catalog := Some "c"; table := "t";
     write_mode := Some "overwrite"; dataframe_type := "spark";
     owner_group := None; partition_columns := PyNone; json_schema := None |}.

Definition with_format (f : string) (t : BaseTable) : BaseTable :=
  {| format := f; database := database t; catalog := catalog t;
     table := table t; write_mode := write_mode t;
     dataframe_type := dataframe_type t; owner_group := owner_group t;
     partition_columns := partition_columns t; json_schema := json_schema t |}.

Definition with_database (name : string) (t : BaseTable) : BaseTable :=
  {| format := format t; database := name; catalog := catalog t;
     table := table t; write_mode := write_mode t;
     dataframe_type := dataframe_type t; owner_group := owner_group t;
     partition_columns := partition_columns t; json_schema := json_schema t |}.

Definition with_catalog (c : option string) (t : BaseTable) : BaseTable :=
  {| format := format t; database := database t; catalog := c;
     table := table t; write_mode := write_mode t;
     dataframe_type := dataframe_type t; owner_group := owner_group t;
     partition_columns := partition_columns t; json_schema := json_schema t |}.

Definition with_table (name : string) (t : BaseTable) : BaseTable :=
  {| format := format t; database := database t; catalog := catalog t;
     table := name; write_mode := write_mode t;
     dataframe_type := dataframe_type t; owner_group := owner_group t;
     partition_columns := partition_columns t; json_schema := json_schema t |}.

Definition with_write_mode (m : option string) (t : BaseTable) : BaseTable :=
  {| format := format t; database := database t; catalog := catalog t;
     table := table t; write_mode := m;
     dataframe_type := dataframe_type t; owner_group := owner_group t;
     partition_columns := partition_columns t; json_schema := json_schema t |}.

Definition with_dataframe_type (d : string) (t : BaseTable) : BaseTable :=
  {| format := format t; database := database t; catalog := catalog t;
     table := table t; write_mode := write_mode t;
     dataframe_type := d; owner_group := owner_group t;
     partition_columns := partition_columns t; json_schema := json_schema t |}.

Definition with_json_schema (j : option (list (string * PyValue)))
    (t : BaseTable) : BaseTable :=
  {| format := format t; database := database t; catalog := catalog t;
     table := table t; write_mode := write_mode t;
     dataframe_type := dataframe_type t; owner_group := owner_group t;
     partition_columns := partition_columns t; json_schema := j |}.

Definition dataset_of (t : BaseTable) : BaseTableDataset :=
  {| _table := t; metadata := PyNone; kwargs := ∅ |}.

Definition shadowing_dataset : BaseTableDataset :=
  {| _table := sample_table; metadata := PyNone;
     kwargs := {[ "table" := PyStr "shadow" ]} |}.

Definition fixed_keys : list string :=
  ["catalog"; "database"; "table"; "write_mode"; "dataframe_type";
   "owner_group"; "partition_columns"].

(** ** Engines and dataframes to compute with *)

(** An engine whose query and read answers are given up front; writes
    succeed and are appended to the session. *)
Definition scripted_engine
    (on_sql : string -> EngineError + list Row)
    (on_table : option string -> EngineError + Frame) : Engine :=
  {| Session := list (string * Frame);
     parse_datatype := fun ty =>
       match ty with
       | PyStr s => inr (SparkType s)
       | _ => inl (ValueError "Could not parse datatype")
       end;
     resolver := equal_ignoring_case;
     spark_sql := fun q s => (on_sql q, s);
     spark_table := fun l s => (on_table l, s);
     spark_saveAsTable := fun _ l f s => (inr tt, s ++ [(l, f)]) |}.

Definition fresh_world (E : Engine) (s : Session E) : World E :=
  {| session := s; calls := []; warnings := [] |}.

Definition orders_frame : Frame :=
  [("a", [1; 2]%Z); ("b", [3; 4]%Z); ("c", [5; 6]%Z)].

Definition orders_row : Row :=
  {| namespace := "d"; tableName := "t"; isTemporary := false |}.

Definition reading_engine : Engine :=
  scripted_engine (fun _ => inr []) (fun _ => inr orders_frame).

Definition stopped_engine : Engine :=
  scripted_engine (fun _ => inl (EngineFailure "session stopped"))
                  (fun _ => inl (EngineFailure "session stopped")).

(** Switching the catalog fails (no such catalog); the listing answers. *)
Definition no_unity_engine : Engine :=
  scripted_engine
    (fun q => if String.prefix "USE CATALOG" q
              then inl (AnalysisException "catalog not found")
              else inr [orders_row])
    (fun _ => inr orders_frame).

Definition ab_schema : list (string * PyValue) :=
  [("type", PyStr "struct");
   ("fields",
    PyList [PyDict [("name", PyStr "a"); ("type", PyStr "long");
                    ("nullable", PyBool true); ("metadata", PyDict [])];
            PyDict [("name", PyStr "b"); ("type", PyStr "long");
                    ("nullable", PyBool true); ("metadata", PyDict [])]])].


(** ** Outcomes *)

(** The representation a gateway hands out and expects. *)
Definition expected_kind (t : BaseTable) : DataKind :=
  if String.eqb (dataframe_type t) "pandas" then PandasKind else SparkKind.

Definition engine_result {A} (r : EngineError + A) : result A :=
  match r with inl e => inl (EngineExn e) | inr a => inr a end.

(** The world after one more call and a session step. *)
Definition after_call {E : Engine} (w : World E) (cs : list Call)
    (s' : Session E) : World E :=
  {| session := s'; calls := calls w ++ cs; warnings := warnings w |}.

(** The writer the overwrite handler ends up with. *)
Definition overwrite_writer (t : BaseTable) : DataFrameWriter :=
  {| w_format := Some (format t); w_mode := Some "overwrite";
     w_options := [("overwriteSchema", "true")] |}.

Definition append_writer (t : BaseTable) : DataFrameWriter :=
  {| w_format := Some (format t); w_mode := Some "append"; w_options := [] |}.





(** What the table check answers for a given answer of the listing
    query. *)
Definition listing_outcome (tbl : string) (r : EngineError + list Row)
  : result bool :=
  match r with
  | inr rows => inr (existsb (fun row => String.eqb (tableName row) tbl) rows)
  | inl (ParseException _) | inl (AnalysisException _) => inr false
  | inl (EngineFailure m) => inl (EngineExn (EngineFailure m))
  end.

(** ** Further definitions for the statements *)

(** The six rules of the constructor, read off the validators. *)
Definition satisfies_rules (t : BaseTable) : Prop :=
  (format t = "delta" \/ format t = "parquet" \/ format t = "csv")
  /\ conforms_to_naming (database t) = true
  /\ (forall c, catalog t = Some c -> c <> EmptyString ->
        conforms_to_naming c = true)
  /\ conforms_to_naming (table t) = true
  /\ (forall m, write_mode t = Some m -> m = "overwrite" \/ m = "append")
  /\ (dataframe_type t = "spark" \/ dataframe_type t = "pandas").

Definition invalid_format_message (f : string) : string :=
  "Invalid `format` provided: " +:+ f +:+ ". "
  +:+ "`format` must be one of: " +:+ join ", " _VALID_FORMATS.

Definition with_owner_group (o : option string) (t : BaseTable) : BaseTable :=
  {| format := format t; database := database t; catalog := catalog t;
     table := table t; write_mode := write_mode t;
     dataframe_type := dataframe_type t; owner_group := o;
     partition_columns := partition_columns t; json_schema := json_schema t |}.

Definition with_partition_columns (p : PyValue) (t : BaseTable) : BaseTable :=
  {| format := format t; database := database t; catalog := catalog t;
     table := table t; write_mode := write_mode t;
     dataframe_type := dataframe_type t; owner_group := owner_group t;
     partition_columns := p; json_schema := json_schema t |}.

(** A gateway around a descriptor, with a given bag and metadata. *)
Definition gateway (t : BaseTable) (md : PyValue) (kw : gmap string PyValue)
  : BaseTableDataset :=
  {| _table := t; metadata := md; kwargs := kw |}.

Definition is_table_write (c : Call) : bool :=
  match c with CallSaveAsTable _ _ _ => true | _ => false end.

(** The table writes among a sequence of calls. *)
Definition table_writes (cs : list Call) : list Call :=
  List.filter is_table_write cs.

(** A JSON field description that decodes to a field named [n]: a
    mapping with a string name, a type the engine decodes, and the
    nullable and metadata entries. *)
Definition decodable_field (E : Engine) (j : PyValue) (n : string) : Prop :=
  exists d ty dt nb md,
    j = PyDict d /\ assoc "name" d = Some (PyStr n)
    /\ assoc "type" d = Some ty /\ parse_datatype E ty = inr dt
    /\ assoc "nullable" d = Some nb /\ assoc "metadata" d = Some md.




(** The warning logged for the answer [r] of a query inside a [try]
    that catches parse and analysis errors: one for a caught error, none
    otherwise. *)
Definition caught_warning {A : Type} (message : Exn -> string)
    (r : EngineError + A) : list string :=
  match r with
  | inl (ParseException m) => [message (EngineExn (ParseException m))]
  | inl (AnalysisException m) => [message (EngineExn (AnalysisException m))]
  | _ => []
  end.

Definition is_engine_failure {A : Type} (r : EngineError + A) : bool :=
  match r with inl (EngineFailure _) => true | _ => false end.

(** A JSON schema whose field has no name. *)
Definition nameless_schema : list (string * PyValue) :=
  [("type", PyStr "struct");
   ("fields",
    PyList [PyDict [("type", PyStr "long"); ("nullable", PyBool true);
                    ("metadata", PyDict [])]])].

(** * Properties *)

(** ** The naming pattern *)

Lemma existsb_class_run cls (Q : option ascii -> bool) s :
  forall prev,
    existsb (fun p => at_end p && Q (fst p)) (class_run cls prev s)
    = all_chars cls s && Q (last_char prev s).
Proof.
  induction s as [|c s IH]; intros prev; simpl.
  - unfold at_end; simpl. now rewrite orb_false_r.
  - unfold at_end at 1; simpl.
    destruct (cls c); simpl; [apply IH | reflexivity].
Qed.

Lemma existsb_rev {A} (f : A -> bool) (l : list A) :
  existsb f (rev l) = existsb f l.
Proof.
  induction l as [|x l IH]; simpl; [reflexivity|].
  rewrite existsb_app, IH. simpl. rewrite orb_false_r. apply orb_comm.
Qed.

Lemma existsb_flat_map {A B} (f : B -> bool) (g : A -> list B) (l : list A) :
  existsb f (flat_map g l) = existsb (fun a => existsb f (g a)) l.
Proof.
  induction l as [|x l IH]; simpl; [reflexivity|].
  now rewrite existsb_app, IH.
Qed.

Lemma existsb_ext' {A} (f g : A -> bool) (l : list A) :
  (forall a, f a = g a) -> existsb f l = existsb g l.
Proof. intros H. induction l; simpl; [reflexivity|]. now rewrite H, IHl. Qed.

Lemma match_from_boundary_first (r : regex) (p : position) :
  match_from (Concat WordBoundary r) p
  = if at_word_boundary p then match_from r p else [].
Proof.
  cbn [match_from]. destruct (at_word_boundary p); cbn [flat_map];
    [apply app_nil_r | reflexivity].
Qed.

Lemma existsb_boundary_last (r : regex) (p : position) :
  existsb at_end (match_from (Concat r WordBoundary) p)
  = existsb (fun q => at_end q && is_word_opt (fst q)) (match_from r p).
Proof.
  cbn [match_from]. rewrite existsb_flat_map. apply existsb_ext'.
  intros [prev rest]. unfold at_word_boundary, at_end. cbn [fst snd].
  destruct rest; cbn [next_char is_word_opt].
  - rewrite xorb_false_r. destruct (is_word_opt prev); reflexivity.
  - destruct (xorb _ _); reflexivity.
Qed.

(** The backtracking matcher on the naming pattern agrees with the
    closed form. *)
Lemma fullmatch_naming (s : string) :
  fullmatch _NAMING_REGEX s = conforms_to_naming s.
Proof.
  unfold fullmatch, _NAMING_REGEX.
  rewrite match_from_boundary_first.
  destruct s as [|c s]; [reflexivity|].
  unfold at_word_boundary. cbn [fst snd next_char is_word_opt xorb conforms_to_naming].
  destruct (is_word c) eqn:Hw; [|reflexivity].
  rewrite existsb_boundary_last. cbn [match_from fst snd].
  rewrite existsb_rev. cbn [class_run drop].
  assert (Hc : naming_class c = true).
  { unfold is_word in Hw. unfold naming_class. now rewrite Hw. }
  rewrite Hc, drop_0, existsb_class_run.
  cbn [all_chars last_char andb]. now rewrite Hc.
Qed.

Example naming_accepts_inner_hyphen :
  fullmatch _NAMING_REGEX "my-table_1" = true.
Proof. reflexivity. Qed.

Example naming_rejects_dot_space_empty :
  fullmatch _NAMING_REGEX "a.b" = false
  /\ fullmatch _NAMING_REGEX "a b" = false
  /\ fullmatch _NAMING_REGEX EmptyString = false.
Proof. repeat split. Qed.

Example naming_rejects_outer_hyphen :
  fullmatch _NAMING_REGEX "-a" = false /\ fullmatch _NAMING_REGEX "a-" = false.
Proof. split; reflexivity. Qed.

(** ** Validation at construction *)

Lemma validated_fields_declared :
  List.filter has_validator __dataclass_fields__ = validated_fields.
Proof. reflexivity. Qed.

Lemma run_validators_spec (t : BaseTable) (names : list string) :
  match snd (run_validators names t) with
  | inr _ =>
      fst (run_validators names t) = List.filter has_validator names
      /\ Forall (passes t) (List.filter has_validator names)
  | inl e =>
      exists earlier f later m,
        List.filter has_validator names = earlier ++ f :: later
        /\ fst (run_validators names t) = earlier ++ [f]
        /\ validator_of f = Some m /\ m t = inl e
        /\ Forall (passes t) earlier
  end.
Proof.
  induction names as [|n names IH]; cbn [run_validators List.filter].
  - cbn. split; [reflexivity | constructor].
  - change (assoc ("_validate_" +:+ n) BaseTable_methods) with (validator_of n).
    assert (Hh : has_validator n
                 = match validator_of n with Some _ => true | None => false end)
      by reflexivity.
    rewrite Hh. clear Hh.
    destruct (validator_of n) as [m|] eqn:Hm; [|exact IH].
    destruct (m t) as [e|u] eqn:Hr; cbn [fst snd].
    + exists [], n, (List.filter has_validator names), m.
      repeat split; auto.
    + destruct (run_validators names t) as [ran [e|u']]; cbn [fst snd] in *.
      * destruct IH as (earlier & f & later & m' & Hf & Hran & Hv & He & Hp).
        exists (n :: earlier), f, later, m'. rewrite Hf, Hran.
        repeat split; auto. constructor; [|exact Hp].
        intros m'' Hm''. rewrite Hm in Hm''. injection Hm'' as <-.
        rewrite Hr. now destruct u.
      * destruct IH as [Hran Hp]. rewrite Hran. split; [reflexivity|].
        constructor; [|exact Hp].
        intros m'' Hm''. rewrite Hm in Hm''. injection Hm'' as <-.
        rewrite Hr. now destruct u.
Qed.

(** The constructor, validator by validator. *)
Lemma BaseTable_new_steps (t : BaseTable) :
  BaseTable_new t =
  match _validate_format t with inl e => inl e | inr _ =>
  match _validate_database t with inl e => inl e | inr _ =>
  match _validate_catalog t with inl e => inl e | inr _ =>
  match _validate_table t with inl e => inl e | inr _ =>
  match _validate_write_mode t with inl e => inl e | inr _ =>
  match _validate_dataframe_type t with inl e => inl e | inr _ => inr t
  end end end end end end.
Proof.
  unfold BaseTable_new, __post_init__.
  cbv [__dataclass_fields__ run_validators BaseTable_methods assoc
       String.append String.eqb Ascii.eqb Bool.eqb].
  destruct (_validate_format t); [reflexivity|].
  destruct (_validate_database t); [reflexivity|].
  destruct (_validate_catalog t); [reflexivity|].
  destruct (_validate_table t); [reflexivity|].
  destruct (_validate_write_mode t); [reflexivity|].
  destruct (_validate_dataframe_type t); reflexivity.
Qed.

Lemma NoDup_validated_fields : NoDup validated_fields.
Proof. apply (bool_decide_unpack _). vm_compute. exact I. Qed.

(** C5.  Construction calls the validators of the declared fields one
    after the other in declaration order (format, database, catalog,
    table, write_mode, dataframe_type), none of them twice.  When all of
    them return, each was called exactly once and the descriptor is
    handed out.  Otherwise the loop stops at the first validator that
    raises: the fields called are the declared ones up to and including
    that field, every earlier one passed, the error raised is that
    validator's own (later violations are never looked at), and no
    descriptor is returned. *)
Theorem post_init_first_violation (t : BaseTable) :
  (exists later, validated_fields = fst (__post_init__ t) ++ later)
  /\ NoDup (fst (__post_init__ t))
  /\ match snd (__post_init__ t) with
     | inr _ =>
         fst (__post_init__ t) = validated_fields
         /\ Forall (passes t) validated_fields
         /\ BaseTable_new t = inr t
     | inl e =>
         BaseTable_new t = inl e
         /\ exists earlier f later m,
              validated_fields = earlier ++ f :: later
              /\ fst (__post_init__ t) = earlier ++ [f]
              /\ validator_of f = Some m /\ m t = inl e
              /\ Forall (passes t) earlier
     end.
Proof.
  pose proof (run_validators_spec t __dataclass_fields__) as H.
  rewrite validated_fields_declared in H.
  unfold BaseTable_new, __post_init__ in *.
  destruct (run_validators __dataclass_fields__ t) as [called [e|u]];
    cbn [fst snd] in *.
  - destruct H as (earlier & f & later & m & Hf & Hc & Hv & He & Hp).
    assert (Hpre : validated_fields = called ++ later).
    { rewrite Hf, Hc, <- app_assoc. reflexivity. }
    split; [eauto|]. split.
    + pose proof NoDup_validated_fields as Hnd. rewrite Hpre in Hnd.
      apply NoDup_app in Hnd. apply Hnd.
    + split; [reflexivity|]. exists earlier, f, later, m. auto.
  - destruct H as [Hc Hp]. subst called.
    split; [exists []; now rewrite app_nil_r|].
    split; [apply NoDup_validated_fields|]. auto.
Qed.

(** ** Names *)

Lemma validate_table_ok (t : BaseTable) :
  _validate_table t =
  if conforms_to_naming (table t) then inr tt
  else inl (DatasetError "table does not conform to naming").
Proof.
  unfold _validate_table. rewrite fullmatch_naming.
  now destruct (conforms_to_naming (table t)).
Qed.

Lemma validate_database_ok (t : BaseTable) :
  _validate_database t =
  if conforms_to_naming (database t) then inr tt
  else inl (DatasetError "database does not conform to naming").
Proof.
  unfold _validate_database. rewrite fullmatch_naming.
  now destruct (conforms_to_naming (database t)).
Qed.

Lemma conforms_all_chars (s : string) :
  conforms_to_naming s = true -> all_chars naming_class s = true.
Proof.
  destruct s as [|c s]; [discriminate|]. unfold conforms_to_naming.
  intros H. apply andb_prop in H as [H _]. now apply andb_prop in H as [_ H].
Qed.

Lemma all_chars_contains (cls : ascii -> bool) (c : ascii) (s : string) :
  cls c = false -> contains_char c s = true -> all_chars cls s = false.
Proof.
  intros Hc. induction s as [|d s IH]; cbn; [discriminate|].
  destruct (Ascii.eqb c d) eqn:Hd; cbn.
  - apply Ascii.eqb_eq in Hd. subst d. now rewrite Hc.
  - intros H. rewrite (IH H). apply andb_false_r.
Qed.

Lemma conforms_truthy (s : string) :
  conforms_to_naming s = true -> truthy s = true.
Proof. now destruct s. Qed.

(** C4, as stated, fails: ["-t"] and ["d-"] are non-empty tokens made of
    word characters and hyphens only, and construction rejects both with
    the naming error. *)
Lemma hyphen_at_either_end_rejected :
  word_or_hyphen_token "-t" = true
  /\ BaseTable_new (with_table "-t" sample_table)
     = inl (DatasetError "table does not conform to naming")
  /\ word_or_hyphen_token "d-" = true
  /\ BaseTable_new (with_database "d-" sample_table)
     = inl (DatasetError "database does not conform to naming").
Proof. repeat split; vm_compute; reflexivity. Qed.

(** C4, amended.  With the other fields valid, construction succeeds iff
    the table name and the database name are each a non-empty string
    over [[0-9a-zA-Z_-]] whose first and last characters are word
    characters (a hyphen may stand only inside the name).  A bad
    database name fails with the database naming error, a bad table name
    (after a good database name) with the table naming error; the empty
    string and every name holding a dot or a space are bad names. *)
Theorem naming_accepts_iff (t : BaseTable) :
  other_fields_valid t ->
  (BaseTable_new t = inr t
   <-> conforms_to_naming (table t) = true
       /\ conforms_to_naming (database t) = true)
  /\ (conforms_to_naming (database t) = false ->
      BaseTable_new t = inl (DatasetError "database does not conform to naming"))
  /\ (conforms_to_naming (database t) = true ->
      conforms_to_naming (table t) = false ->
      BaseTable_new t = inl (DatasetError "table does not conform to naming"))
  /\ (forall s, conforms_to_naming s
                = word_or_hyphen_token s && is_word_opt (next_char s)
                  && is_word_opt (last_char None s))
  /\ (forall s, s = EmptyString \/ contains_char "."%char s = true
                \/ contains_char " "%char s = true ->
                conforms_to_naming s = false).
Proof.
  intros (Hf & Hc & Hw & Hd).
  rewrite BaseTable_new_steps, Hf, Hc, Hw, Hd,
    validate_table_ok, validate_database_ok.
  split; [|split; [|split; [|split]]].
  - destruct (conforms_to_naming (database t));
      destruct (conforms_to_naming (table t)); split;
      try discriminate; try tauto; intros [? ?]; discriminate.
  - now intros ->.
  - now intros -> ->.
  - intros [|c s]; [reflexivity|].
    cbn [conforms_to_naming word_or_hyphen_token next_char is_word_opt].
    now rewrite (andb_comm (is_word c)).
  - intros s [-> | [H | H]]; [reflexivity | |];
      (destruct (conforms_to_naming s) eqn:E; [|reflexivity]);
      apply conforms_all_chars in E;
      apply (all_chars_contains naming_class) in H; try reflexivity;
      congruence.
Qed.

Lemma naming_accepts_iff_witness :
  (BaseTable_new sample_table = inr sample_table
   <-> conforms_to_naming "t" = true /\ conforms_to_naming "d" = true).
Proof.
  apply (naming_accepts_iff sample_table).
  repeat split; vm_compute; reflexivity.
Defined.

(** ** What a constructed descriptor satisfies *)

Lemma constructed_inv (t t' : BaseTable) :
  BaseTable_new t = inr t' ->
  t' = t
  /\ _validate_format t = inr tt /\ _validate_database t = inr tt
  /\ _validate_catalog t = inr tt /\ _validate_table t = inr tt
  /\ _validate_write_mode t = inr tt /\ _validate_dataframe_type t = inr tt.
Proof.
  rewrite BaseTable_new_steps.
  destruct (_validate_format t) as [?|[]]; [discriminate|].
  destruct (_validate_database t) as [?|[]]; [discriminate|].
  destruct (_validate_catalog t) as [?|[]]; [discriminate|].
  destruct (_validate_table t) as [?|[]]; [discriminate|].
  destruct (_validate_write_mode t) as [?|[]]; [discriminate|].
  destruct (_validate_dataframe_type t) as [?|[]]; [discriminate|].
  intros [= <-]. repeat split.
Qed.

Lemma constructed_names (t : BaseTable) :
  constructed t ->
  conforms_to_naming (database t) = true /\ conforms_to_naming (table t) = true.
Proof.
  intros H. apply constructed_inv in H as (_ & _ & Hd & _ & Ht & _).
  rewrite validate_database_ok in Hd. rewrite validate_table_ok in Ht.
  split.
  - now destruct (conforms_to_naming (database t)).
  - now destruct (conforms_to_naming (table t)).
Qed.

Lemma str_in_valid_write_modes (m : string) :
  str_in m _VALID_WRITE_MODES = true <-> m = "overwrite" \/ m = "append".
Proof.
  unfold str_in, _VALID_WRITE_MODES. cbn [existsb].
  rewrite !orb_true_iff, !String.eqb_eq. intuition discriminate.
Qed.

Lemma constructed_write_mode (t : BaseTable) (m : string) :
  constructed t -> write_mode t = Some m -> m = "overwrite" \/ m = "append".
Proof.
  intros H Hm. apply constructed_inv in H as (_ & _ & _ & _ & _ & Hw & _).
  unfold _validate_write_mode in Hw. rewrite Hm in Hw.
  apply str_in_valid_write_modes.
  now destruct (str_in m _VALID_WRITE_MODES).
Qed.

Lemma constructed_dataframe_type (t : BaseTable) :
  constructed t -> dataframe_type t = "spark" \/ dataframe_type t = "pandas".
Proof.
  intros H. apply constructed_inv in H as (_ & _ & _ & _ & _ & _ & Hd).
  unfold _validate_dataframe_type, str_in, _VALID_DATAFRAME_TYPES in Hd.
  cbn [existsb] in Hd.
  destruct (String.eqb_spec (dataframe_type t) "spark"); [now left|].
  destruct (String.eqb_spec (dataframe_type t) "pandas"); [now right|].
  discriminate.
Qed.


(** ** Write modes *)




(** ** The qualified location *)

(** C6.  On a constructed descriptor [full_table_location] (a total
    function of the descriptor) returns the backtick-quoted, dot-joined
    catalog, database and table when a catalog is set, and the quoted
    database and table when the catalog is absent; it never returns
    null there.  On any descriptor it returns null only if the database
    or the table is empty. *)
Theorem full_table_location_constructed (t : BaseTable) :
  constructed t ->
  (forall c, catalog t = Some c -> c <> EmptyString ->
     full_table_location t
     = Some ("`" +:+ c +:+ "`.`" +:+ database t +:+ "`.`" +:+ table t +:+ "`"))
  /\ (catalog t = None ->
      full_table_location t
      = Some ("`" +:+ database t +:+ "`.`" +:+ table t +:+ "`"))
  /\ full_table_location t <> None
  /\ (forall u, full_table_location u = None ->
        database u = EmptyString \/ table u = EmptyString).
Proof.
  intros H. apply constructed_names in H as [Hd Ht].
  apply conforms_truthy in Hd, Ht.
  unfold full_table_location. rewrite Hd, Ht. repeat split.
  - intros c -> Hc. destruct c; [congruence | reflexivity].
  - now intros ->.
  - destruct (catalog t) as [c|]; [destruct (truthy c)|]; discriminate.
  - intros u. destruct (database u), (table u); cbn; auto;
      destruct (catalog u) as [[|? ?]|]; discriminate.
Qed.

Lemma full_table_location_constructed_witness :
  full_table_location sample_table = Some "`c`.`d`.`t`"
  /\ full_table_location (with_catalog None sample_table) = Some "`d`.`t`".
Proof.
  split.
  - refine (proj1 (full_table_location_constructed sample_table _)
              "c" eq_refl _); [vm_compute; reflexivity | discriminate].
  - refine (proj1 (proj2 (full_table_location_constructed
                            (with_catalog None sample_table) _)) eq_refl).
    vm_compute; reflexivity.
Defined.

(** ** Read-only gateways *)

Ltac unfold_monad :=
  unfold bind, ret, raise, lift, called, warning, on_session, try_except.

(** C2.  With a null write mode, [save] raises the read-only error at
    once: the engine session, the call log and the warnings are left as
    they were, and the schema is not looked at.  [load] is not affected
    by the write mode: it reads the table at the qualified location and
    returns what the engine returned, the same columns and cells,
    converted to a local dataframe exactly when the dataframe type is
    pandas; no column selection is made.  (An engine error on the read
    is passed on as it is.) *)
Theorem read_only_save_rejected_load_unchanged
    (E : Engine) (self : BaseTableDataset) (data : DataFrame) (w : World E) :
  write_mode (_table self) = None ->
  _save E self data w = (inl (DatasetError read_only_message), w)
  /\ (forall f s',
        spark_table E (full_table_location (_table self)) (session w)
        = (inr f, s') ->
        _load E self w
        = (inr {| kind := expected_kind (_table self); frame := f |},
           {| session := s';
              calls := calls w
                       ++ CallTable (full_table_location (_table self))
                       :: (if String.eqb (dataframe_type (_table self)) "pandas"
                           then [CallToPandas] else []);
              warnings := warnings w |}))
  /\ (forall e s',
        spark_table E (full_table_location (_table self)) (session w)
        = (inl e, s') ->
        fst (_load E self w) = inl (EngineExn e)).
Proof.
  intros Hm. split; [|split].
  - unfold _save. rewrite Hm. reflexivity.
  - intros f s' Hr. unfold _load, read_table, toPandas, expected_kind.
    unfold_monad. cbn. rewrite Hr.
    destruct (String.eqb (dataframe_type (_table self)) "pandas"); cbn;
      [rewrite <- app_assoc|]; reflexivity.
  - intros e s' Hr. unfold _load, read_table. unfold_monad. cbn.
    rewrite Hr. reflexivity.
Qed.

Lemma read_only_save_rejected_load_unchanged_witness :
  _save reading_engine
    (dataset_of (with_dataframe_type "pandas" (with_write_mode None sample_table)))
    {| kind := PandasKind; frame := orders_frame |}
    (fresh_world reading_engine [])
  = (inl (DatasetError read_only_message), fresh_world reading_engine [])
  /\ fst (_load reading_engine
            (dataset_of (with_dataframe_type "pandas"
                           (with_write_mode None sample_table)))
            (fresh_world reading_engine []))
     = inr {| kind := PandasKind; frame := orders_frame |}.
Proof.
  pose proof (read_only_save_rejected_load_unchanged reading_engine
    (dataset_of (with_dataframe_type "pandas" (with_write_mode None sample_table)))
    {| kind := PandasKind; frame := orders_frame |}
    (fresh_world reading_engine []) eq_refl) as [Hs [Hl _]].
  split; [exact Hs|].
  rewrite (Hl orders_frame [] eq_refl). reflexivity.
Defined.

(** ** Dispatch on the write mode *)

Lemma save_method_lookup (E : Engine) (m : string) :
  assoc ("_save_" +:+ m) (BaseTableDataset_methods E)
  = if String.eqb m "append" then Some (_save_append E)
    else if String.eqb m "overwrite" then Some (_save_overwrite E)
    else None.
Proof. reflexivity. Qed.

Lemma save_method_exists_iff (E : Engine) (m : string) :
  assoc ("_save_" +:+ m) (BaseTableDataset_methods E) = None
  <-> m <> "append" /\ m <> "overwrite".
Proof.
  rewrite save_method_lookup.
  destruct (String.eqb_spec m "append");
    destruct (String.eqb_spec m "overwrite"); split;
    try discriminate; try tauto; intros [? ?]; contradiction.
Qed.

Lemma save_overwrite_spark (E : Engine) (self : BaseTableDataset)
    (f : Frame) (w : World E) :
  write_mode (_table self) = Some "overwrite" ->
  _save_overwrite E self {| kind := SparkKind; frame := f |} w
  = (engine_result
       (fst (spark_saveAsTable E (overwrite_writer (_table self))
               (or_empty (full_table_location (_table self))) f (session w))),
     after_call w
       [CallSaveAsTable (overwrite_writer (_table self))
          (or_empty (full_table_location (_table self))) f]
       (snd (spark_saveAsTable E (overwrite_writer (_table self))
               (or_empty (full_table_location (_table self))) f (session w)))).
Proof.
  intros Hm. unfold _save_overwrite, write, saveAsTable. unfold_monad.
  cbn. rewrite Hm. cbn.
  unfold overwrite_writer, after_call, engine_result.
  destruct (spark_saveAsTable E _ _ f (session w)) as [[e|u] s']; reflexivity.
Qed.

Lemma save_append_spark (E : Engine) (self : BaseTableDataset)
    (f : Frame) (w : World E) :
  _save_append E self {| kind := SparkKind; frame := f |} w
  = (engine_result
       (fst (spark_saveAsTable E (append_writer (_table self))
               (or_empty (full_table_location (_table self))) f (session w))),
     after_call w
       [CallSaveAsTable (append_writer (_table self))
          (or_empty (full_table_location (_table self))) f]
       (snd (spark_saveAsTable E (append_writer (_table self))
               (or_empty (full_table_location (_table self))) f (session w)))).
Proof.
  unfold _save_append, write, saveAsTable. unfold_monad. cbn.
  unfold append_writer, after_call, engine_result.
  destruct (spark_saveAsTable E _ _ f (session w)) as [[e|u] s']; reflexivity.
Qed.

(** A handler never raises a [DatasetError]. *)
Lemma handlers_raise_no_dataset_error (E : Engine) (self : BaseTableDataset)
    (d : DataFrame) (w : World E) (msg : string) :
  fst (_save_append E self d w) <> inl (DatasetError msg)
  /\ fst (_save_overwrite E self d w) <> inl (DatasetError msg).
Proof.
  destruct d as [[|] f].
  - rewrite save_append_spark. split.
    + cbn. now destruct (fst (spark_saveAsTable E _ _ f (session w))).
    + unfold _save_overwrite, write, saveAsTable. unfold_monad. cbn.
      destruct (spark_saveAsTable E _ _ f (session w)) as [[e|u] s'];
        cbn; discriminate.
  - split; cbn; discriminate.
Qed.

Lemma dispatch_overwrite (E : Engine) (self : BaseTableDataset) :
  dispatch E self "overwrite" = _save_overwrite E self.
Proof. reflexivity. Qed.

Lemma dispatch_append (E : Engine) (self : BaseTableDataset) :
  dispatch E self "append" = _save_append E self.
Proof. reflexivity. Qed.





(** C8, as stated, fails: a constructed gateway in overwrite mode whose
    JSON schema has no ["fields"] entry stops in [save] at the schema
    decoding, with nothing called, so no handler is reached. *)
Lemma malformed_schema_stops_before_dispatch :
  constructed (with_json_schema (Some []) sample_table)
  /\ write_mode (with_json_schema (Some []) sample_table) = Some "overwrite"
  /\ _save reading_engine
       (dataset_of (with_json_schema (Some []) sample_table))
       {| kind := SparkKind; frame := orders_frame |}
       (fresh_world reading_engine [])
     = (inl (DatasetError "'fields'"), fresh_world reading_engine []).
Proof. repeat split; vm_compute; reflexivity. Qed.

(** C8, amended.  The dispatch step of [save] raises the
    unsupported-write-mode error iff no handler is named after the mode.
    For a gateway whose descriptor passed validation with a non-null
    write mode, a handler is named after the mode, so that error is
    never raised by the dispatch; [save] either stops with the error of
    the steps before the dispatch (schema decoding, projection, native
    dataframe construction) or calls the handler on the prepared
    dataframe, which, for a native dataframe, makes exactly one table
    write. *)
Theorem save_reaches_handler
    (E : Engine) (self : BaseTableDataset) (data : DataFrame) (w : World E) :
  (forall m d w1,
     fst (dispatch E self m d w1)
     = inl (DatasetError (unsupported_write_mode_message m))
     <-> assoc ("_save_" +:+ m) (BaseTableDataset_methods E) = None)
  /\ (forall m,
        constructed (_table self) -> write_mode (_table self) = Some m ->
        exists method,
          assoc ("_save_" +:+ m) (BaseTableDataset_methods E) = Some method
          /\ (forall d w1,
                fst (dispatch E self m d w1)
                <> inl (DatasetError (unsupported_write_mode_message m)))
          /\ _save E self data w
             = match prepare E self data w with
               | (inl e, w1) => (inl e, w1)
               | (inr d, w1) => method self d w1
               end
          /\ (forall d w1,
                prepare E self data w = (inr d, w1) -> kind d = SparkKind ->
                exists wr,
                  calls (snd (_save E self data w))
                  = calls w1
                    ++ [CallSaveAsTable wr
                          (or_empty (full_table_location (_table self)))
                          (frame d)])).
Proof.
  assert (Hiff : forall m d w1,
     fst (dispatch E self m d w1)
     = inl (DatasetError (unsupported_write_mode_message m))
     <-> assoc ("_save_" +:+ m) (BaseTableDataset_methods E) = None).
  { intros m d w1. unfold dispatch. rewrite save_method_lookup.
    destruct (handlers_raise_no_dataset_error E self d w1
                (unsupported_write_mode_message m)) as [Ha Ho].
    destruct (String.eqb m "append"); [split; [tauto | discriminate]|].
    destruct (String.eqb m "overwrite"); [split; [tauto | discriminate]|].
    split; reflexivity. }
  split; [exact Hiff|].
  intros m Hc Hm.
  assert (Hsave : forall method,
            assoc ("_save_" +:+ m) (BaseTableDataset_methods E) = Some method ->
            _save E self data w
            = match prepare E self data w with
              | (inl e, w1) => (inl e, w1)
              | (inr d, w1) => method self d w1
              end).
  { intros method Hl. unfold _save. rewrite Hm. unfold bind.
    destruct (prepare E self data w) as [[e|d] w1]; [reflexivity|].
    unfold dispatch. now rewrite Hl. }
  destruct (constructed_write_mode _ _ Hc Hm) as [-> | ->].
  - exists (_save_overwrite E). split; [reflexivity|]. split; [|split].
    + intros d w1 H. apply Hiff in H. discriminate.
    + now apply Hsave.
    + intros [k f] w1 Hp Hk. cbn in Hk. subst k.
      rewrite (Hsave _ eq_refl), Hp, save_overwrite_spark by exact Hm.
      eexists. reflexivity.
  - exists (_save_append E). split; [reflexivity|]. split; [|split].
    + intros d w1 H. apply Hiff in H. discriminate.
    + now apply Hsave.
    + intros [k f] w1 Hp Hk. cbn in Hk. subst k.
      rewrite (Hsave _ eq_refl), Hp, save_append_spark.
      eexists. reflexivity.
Qed.

Lemma save_reaches_handler_witness :
  exists wr,
    calls (snd (_save reading_engine (dataset_of sample_table)
                  {| kind := SparkKind; frame := orders_frame |}
                  (fresh_world reading_engine [])))
    = [CallSaveAsTable wr "`c`.`d`.`t`" orders_frame].
Proof.
  destruct (proj2 (save_reaches_handler reading_engine (dataset_of sample_table)
                     {| kind := SparkKind; frame := orders_frame |}
                     (fresh_world reading_engine []))
              "overwrite" ltac:(vm_compute; reflexivity) eq_refl)
    as (method & _ & _ & _ & H).
  exact (H {| kind := SparkKind; frame := orders_frame |}
           (fresh_world reading_engine []) eq_refl eq_refl).
Defined.

(** ** Projection to the schema *)











(** The case of the specification, run: columns [a; b; c], fields
    [a; b]. *)
Example save_ab_of_abc :
  calls (snd (_save reading_engine
                (dataset_of (with_json_schema (Some ab_schema) sample_table))
                {| kind := SparkKind; frame := orders_frame |}
                (fresh_world reading_engine [])))
  = [CallSelect ["a"; "b"];
     CallSaveAsTable
       {| w_format := Some "delta"; w_mode := Some "overwrite";
          w_options := [("overwriteSchema", "true")] |}
       "`c`.`d`.`t`" [("a", [1; 2]%Z); ("b", [3; 4]%Z)]].
Proof. vm_compute. reflexivity. Qed.

(** Under the default resolver a column [A] answers to the field [a],
    and two columns [a] and [A] make the field ambiguous. *)
Example select_ignores_case :
  spark_select equal_ignoring_case ["a"; "b"]
    [("A", [1]%Z); ("b", [2]%Z); ("c", [3]%Z)]
  = inr [("a", [1]%Z); ("b", [2]%Z)]
  /\ spark_select equal_ignoring_case ["a"; "b"]
       [("a", [1]%Z); ("A", [2]%Z); ("b", [3]%Z)]
     = inl (EngineExn (AnalysisException "ambiguous reference a")).
Proof. split; vm_compute; reflexivity. Qed.

(** ** Existence check *)

Lemma count_named_positive (tbl : string) (rows : list Row) :
  Nat.ltb 0 (count_named tbl rows)
  = existsb (fun row => String.eqb (tableName row) tbl) rows.
Proof.
  unfold count_named. induction rows as [|r rows IH]; [reflexivity|].
  cbn. destruct (String.eqb (tableName r) tbl); [reflexivity | exact IH].
Qed.

Lemma find_table_outcome (E : Engine) (self : BaseTableDataset) (w : World E) :
  fst (find_table E self w)
  = listing_outcome (table (_table self))
      (fst (spark_sql E (show_tables_query (database (_table self))) (session w))).
Proof.
  unfold find_table, sql. unfold_monad. cbn [session calls warnings].
  destruct (spark_sql E _ (session w)) as [[[m|m|m]|rows] s1];
    cbn [fst snd parse_or_analysis listing_outcome]; try reflexivity.
  now rewrite count_named_positive.
Qed.

Lemma find_table_keeps_warnings (E : Engine) (self : BaseTableDataset)
    (w : World E) (msg : string) :
  msg ∈ warnings w -> msg ∈ warnings (snd (find_table E self w)).
Proof.
  unfold find_table, sql. unfold_monad. cbn.
  destruct (spark_sql E _ (session w)) as [[[m|m|m]|rows] s1]; cbn; auto;
    intros H; apply elem_of_app; now left.
Qed.

(** C3, as stated, fails: when the listing query fails with an error
    that is neither a parse nor an analysis error, [exists] raises that
    error. *)
Lemma exists_raises_other_engine_errors :
  constructed (with_catalog None sample_table)
  /\ fst (_exists stopped_engine (dataset_of (with_catalog None sample_table))
            (fresh_world stopped_engine []))
     = inl (EngineExn (EngineFailure "session stopped")).
Proof. split; vm_compute; reflexivity. Qed.

(** C3, amended.  [exists] never raises a parse or analysis error; it
    raises only when an engine call fails with an error of another
    class, which it passes on.  (1) If a catalog is set and switching to
    it fails with a parse or analysis error, a warning is logged and the
    answer is that of the table check alone, made in the session the
    failed switch left; likewise when the switch succeeds or no catalog
    is set.  (2) The table check answers false when the listing query
    fails with a parse or analysis error, and otherwise true iff at
    least one listed row has a table name equal to the configured
    table. *)
Theorem exists_outcome (E : Engine) (self : BaseTableDataset) (w : World E) :
  (forall e, fst (_exists E self w) = inl e ->
     exists m, e = EngineExn (EngineFailure m))
  /\ (forall c e s1,
        catalog (_table self) = Some c -> c <> EmptyString ->
        spark_sql E (use_catalog_query c) (session w) = (inl e, s1) ->
        parse_or_analysis (EngineExn e) = true ->
        fst (_exists E self w)
        = listing_outcome (table (_table self))
            (fst (spark_sql E (show_tables_query (database (_table self))) s1))
        /\ catalog_warning c (EngineExn e) ∈ warnings (snd (_exists E self w)))
  /\ (forall c rows s1,
        catalog (_table self) = Some c -> c <> EmptyString ->
        spark_sql E (use_catalog_query c) (session w) = (inr rows, s1) ->
        fst (_exists E self w)
        = listing_outcome (table (_table self))
            (fst (spark_sql E (show_tables_query (database (_table self))) s1)))
  /\ (truthy_opt (catalog (_table self)) = false ->
      fst (_exists E self w)
      = listing_outcome (table (_table self))
          (fst (spark_sql E (show_tables_query (database (_table self)))
                  (session w))))
  /\ (forall tbl e, parse_or_analysis (EngineExn e) = true ->
        listing_outcome tbl (inl e) = inr false)
  /\ (forall tbl rows,
        exists b, listing_outcome tbl (inr rows) = inr b
                  /\ (b = true <-> exists row, row ∈ rows /\ tableName row = tbl)).
Proof.
  split; [|split; [|split; [|split; [|split]]]].
  - intros e. unfold _exists. unfold bind at 1.
    destruct (switch_catalog E self w) as [[e1|[]] w1] eqn:Esw.
    + cbn. intros [= <-]. revert Esw. unfold switch_catalog.
      destruct (catalog (_table self)) as [c|]; [|discriminate].
      destruct (truthy c); [|discriminate].
      unfold sql. unfold_monad. cbn.
      destruct (spark_sql E _ (session w)) as [[[m|m|m]|rows] s1]; cbn;
        try discriminate.
      intros [= <- _]. eauto.
    + rewrite find_table_outcome.
      destruct (spark_sql E _ (session w1)) as [[[m|m|m]|rows] s2]; cbn;
        try discriminate.
      intros [= <-]. eauto.
  - intros c e s1 Hc Hne Hq Hp. unfold _exists. unfold bind at 1.
    unfold switch_catalog. rewrite Hc.
    destruct c as [|a c]; [congruence|]. cbn [truthy].
    unfold sql. unfold_monad. cbn [session calls warnings]. rewrite Hq.
    destruct e as [m|m|m]; try discriminate; cbn [parse_or_analysis].
    all: split;
      [ rewrite find_table_outcome; reflexivity
      | apply find_table_keeps_warnings; cbn [warnings];
        apply elem_of_app; right; apply elem_of_cons; now left ].
  - intros c rows s1 Hc Hne Hq. unfold _exists. unfold bind at 1.
    unfold switch_catalog. rewrite Hc.
    destruct c as [|a c]; [congruence|]. cbn [truthy].
    unfold sql. unfold_monad. cbn [session calls warnings]. rewrite Hq.
    rewrite find_table_outcome. reflexivity.
  - intros Hc. unfold _exists. unfold bind at 1. unfold switch_catalog.
    destruct (catalog (_table self)) as [c|]; cbn in Hc;
      [rewrite Hc|]; unfold ret; apply find_table_outcome.
  - intros tbl [m|m|m]; cbn; [reflexivity | reflexivity | discriminate].
  - intros tbl rows. eexists. split; [reflexivity|].
    rewrite existsb_exists. setoid_rewrite String.eqb_eq.
    setoid_rewrite <- list_elem_of_In. reflexivity.
Qed.

Lemma exists_outcome_witness :
  fst (_exists no_unity_engine (dataset_of sample_table)
         (fresh_world no_unity_engine []))
  = inr true
  /\ catalog_warning "c" (EngineExn (AnalysisException "catalog not found"))
     ∈ warnings (snd (_exists no_unity_engine (dataset_of sample_table)
                        (fresh_world no_unity_engine []))).
Proof.
  exact (proj1 (proj2 (exists_outcome no_unity_engine (dataset_of sample_table)
                         (fresh_world no_unity_engine [])))
           "c" (AnalysisException "catalog not found") []
           eq_refl ltac:(discriminate) eq_refl eq_refl).
Defined.

(** ** Description *)

Lemma descriptor_items_lookup (t : BaseTable) (k : string) :
  (list_to_map (descriptor_items t) : gmap string PyValue) !! k
  = assoc k (descriptor_items t).
Proof.
  unfold descriptor_items. cbn [list_to_map foldr assoc fst snd].
  repeat (rewrite lookup_insert;
          match goal with
          | |- context [decide (?a = k)] =>
              destruct (decide (a = k)) as [<-|Hne];
              [reflexivity
              | let E := fresh in
                destruct (String.eqb_spec k a) as [E|_];
                [symmetry in E; contradiction|]; clear Hne]
          end).
  apply lookup_empty.
Qed.

(** C10.  In the mapping [describe] returns, the configuration bag is
    merged last.  For every key, a value the bag holds under that key is
    the value returned; this covers a bag key equal to one of the seven
    fixed keys, whose descriptor-derived value is then shadowed.  A key
    the bag does not hold maps to the fixed item of that name, if any;
    so when the bag shares no key with the fixed set, each fixed key
    maps exactly to the corresponding descriptor field. *)
Theorem describe_merges_bag_last (self : BaseTableDataset) :
  (forall k v, kwargs self !! k = Some v -> _describe self !! k = Some v)
  /\ (forall k, kwargs self !! k = None ->
        _describe self !! k = assoc k (descriptor_items (_table self)))
  /\ ((forall k, In k fixed_keys -> kwargs self !! k = None) ->
      _describe self !! "catalog" = Some (py_opt_str (catalog (_table self)))
      /\ _describe self !! "database" = Some (PyStr (database (_table self)))
      /\ _describe self !! "table" = Some (PyStr (table (_table self)))
      /\ _describe self !! "write_mode"
         = Some (py_opt_str (write_mode (_table self)))
      /\ _describe self !! "dataframe_type"
         = Some (PyStr (dataframe_type (_table self)))
      /\ _describe self !! "owner_group"
         = Some (py_opt_str (owner_group (_table self)))
      /\ _describe self !! "partition_columns"
         = Some (partition_columns (_table self))).
Proof.
  assert (Hnone : forall k, kwargs self !! k = None ->
            _describe self !! k = assoc k (descriptor_items (_table self))).
  { intros k Hk. unfold _describe.
    rewrite lookup_union_r by exact Hk. apply descriptor_items_lookup. }
  split; [|split; [exact Hnone|]].
  - intros k v Hk. unfold _describe. now apply lookup_union_Some_l.
  - intros Hfix. repeat split; rewrite Hnone; try reflexivity;
      apply Hfix; cbn; tauto.
Qed.

Lemma describe_merges_bag_last_witness :
  _describe shadowing_dataset !! "table" = Some (PyStr "shadow")
  /\ _describe shadowing_dataset !! "database" = Some (PyStr "d")
  /\ _describe (dataset_of sample_table) !! "table" = Some (PyStr "t").
Proof.
  split; [|split].
  - apply (proj1 (describe_merges_bag_last shadowing_dataset)).
    vm_compute. reflexivity.
  - rewrite (proj1 (proj2 (describe_merges_bag_last shadowing_dataset))
               "database" ltac:(vm_compute; reflexivity)).
    reflexivity.
  - apply (proj2 (proj2 (describe_merges_bag_last (dataset_of sample_table)))).
    intros k _. apply lookup_empty.
Defined.

(** ** Construction of the gateway *)

Lemma init_stores_arguments (create_table : InitArgs -> result BaseTable)
    (args : InitArgs) (self : BaseTableDataset) :
  __init__ create_table args = inr self ->
  create_table args = inr (_table self)
  /\ metadata self = arg_metadata args
  /\ kwargs self = arg_kwargs args.
Proof.
  unfold __init__. destruct (create_table args) as [e|t]; [discriminate|].
  intros [= <-]. repeat split.
Qed.

Lemma base_class_is_abstract (args : InitArgs) :
  __init__ _create_table args = inl NotImplementedError.
Proof. reflexivity. Qed.

(** * Further properties of the descriptor *)

Lemma str_in_valid_formats (f : string) :
  str_in f _VALID_FORMATS = true <-> f = "delta" \/ f = "parquet" \/ f = "csv".
Proof.
  unfold str_in, _VALID_FORMATS. cbn [existsb].
  rewrite !orb_true_iff, !String.eqb_eq. intuition discriminate.
Qed.

Lemma str_in_valid_dataframe_types (d : string) :
  str_in d _VALID_DATAFRAME_TYPES = true <-> d = "spark" \/ d = "pandas".
Proof.
  unfold str_in, _VALID_DATAFRAME_TYPES. cbn [existsb].
  rewrite !orb_true_iff, !String.eqb_eq. intuition discriminate.
Qed.

Lemma validate_format_passes (t : BaseTable) :
  _validate_format t = inr tt
  <-> format t = "delta" \/ format t = "parquet" \/ format t = "csv".
Proof.
  rewrite <- str_in_valid_formats. unfold _validate_format.
  destruct (str_in (format t) _VALID_FORMATS); cbn; split;
    solve [reflexivity | discriminate].
Qed.

Lemma validate_catalog_passes (t : BaseTable) :
  _validate_catalog t = inr tt
  <-> (forall c, catalog t = Some c -> c <> EmptyString ->
         conforms_to_naming c = true).
Proof.
  unfold _validate_catalog. destruct (catalog t) as [c|].
  - destruct c as [|a c]; cbn [truthy].
    + split; [intros _ c' [= <-] H; congruence | reflexivity].
    + rewrite fullmatch_naming.
      destruct (conforms_to_naming (String a c)) eqn:E; cbn [negb]; split.
      * intros _ c' [= <-] _. exact E.
      * reflexivity.
      * discriminate.
      * intros H. specialize (H _ eq_refl ltac:(discriminate)). congruence.
  - split; [intros _ c' [=] | reflexivity].
Qed.

Lemma validate_write_mode_passes (t : BaseTable) :
  _validate_write_mode t = inr tt
  <-> (forall m, write_mode t = Some m -> m = "overwrite" \/ m = "append").
Proof.
  unfold _validate_write_mode. destruct (write_mode t) as [m|].
  - destruct (str_in m _VALID_WRITE_MODES) eqn:E; cbn [negb]; split.
    + intros _ m' [= <-]. now apply str_in_valid_write_modes.
    + reflexivity.
    + discriminate.
    + intros H. specialize (H m eq_refl).
      apply str_in_valid_write_modes in H. congruence.
  - split; [intros _ m' [=] | reflexivity].
Qed.

Lemma validate_dataframe_type_passes (t : BaseTable) :
  _validate_dataframe_type t = inr tt
  <-> dataframe_type t = "spark" \/ dataframe_type t = "pandas".
Proof.
  rewrite <- str_in_valid_dataframe_types. unfold _validate_dataframe_type.
  destruct (str_in (dataframe_type t) _VALID_DATAFRAME_TYPES); cbn; split;
    solve [reflexivity | discriminate].
Qed.

Lemma validate_names_pass (t : BaseTable) :
  (_validate_database t = inr tt <-> conforms_to_naming (database t) = true)
  /\ (_validate_table t = inr tt <-> conforms_to_naming (table t) = true).
Proof.
  rewrite validate_database_ok, validate_table_ok.
  destruct (conforms_to_naming (database t)), (conforms_to_naming (table t));
    repeat split; solve [reflexivity | discriminate].
Qed.

Lemma unit_result_cases (r : result unit) :
  r = inr tt \/ exists e, r = inl e.
Proof. destruct r as [e|[]]; eauto. Qed.

(** X1.  The constructor hands out a descriptor exactly when the six
    rules hold (format in the valid set; database and table conform to
    naming; a non-empty catalog conforms to naming; a non-null write
    mode is overwrite or append; dataframe type is spark or pandas), and
    the descriptor handed out holds the field values as given. *)
Theorem constructor_accepts_iff (t : BaseTable) :
  (BaseTable_new t = inr t <-> satisfies_rules t)
  /\ (forall t', BaseTable_new t = inr t' -> t' = t).
Proof.
  split.
  - unfold satisfies_rules.
    rewrite <- validate_format_passes, <- validate_catalog_passes,
      <- validate_write_mode_passes, <- validate_dataframe_type_passes,
      <- (proj1 (validate_names_pass t)), <- (proj2 (validate_names_pass t)).
    split.
    + intros H. apply constructed_inv in H. tauto.
    + intros (Hf & Hd & Hc & Ht & Hw & Hy).
      now rewrite BaseTable_new_steps, Hf, Hd, Hc, Ht, Hw, Hy.
  - intros t' H. now apply constructed_inv in H.
Qed.

(** X2.  For field values of the annotated types (the names and the
    format strings, the catalog and the write mode strings or null), a
    failing construction raises a [DatasetError] and nothing else; in
    particular the primary-key validator, which would stop at a missing
    attribute, never runs.  (A name of another type is outside the
    record: [re.fullmatch] would raise a [TypeError] on it.) *)
Theorem constructor_raises_only_dataset_error (t : BaseTable) (e : Exn) :
  BaseTable_new t = inl e -> exists msg, e = DatasetError msg.
Proof.
  rewrite BaseTable_new_steps.
  unfold _validate_format, _validate_database, _validate_catalog,
    _validate_table, _validate_write_mode, _validate_dataframe_type.
  repeat match goal with
         | |- context [if ?b then _ else _] => destruct b
         | |- context [match ?o with Some _ => _ | None => _ end] => destruct o
         end;
    intros [= <-]; eauto.
Qed.

Lemma constructor_raises_only_dataset_error_witness :
  exists msg,
    DatasetError "table does not conform to naming" = DatasetError msg.
Proof.
  apply (constructor_raises_only_dataset_error (with_table "a.b" sample_table)).
  vm_compute. reflexivity.
Defined.

(** X3.  The format is checked first: with a format outside delta,
    parquet and csv, construction fails with the invalid-format error
    naming that format, whatever the other fields hold. *)
Theorem invalid_format_reported_first (t : BaseTable) :
  format t <> "delta" -> format t <> "parquet" -> format t <> "csv" ->
  BaseTable_new t = inl (DatasetError (invalid_format_message (format t))).
Proof.
  intros H1 H2 H3. rewrite BaseTable_new_steps.
  unfold _validate_format.
  destruct (str_in (format t) _VALID_FORMATS) eqn:E; [|reflexivity].
  apply str_in_valid_formats in E. tauto.
Qed.

Lemma invalid_format_reported_first_witness :
  BaseTable_new (with_format "json" (with_table "a b" sample_table))
  = inl (DatasetError (invalid_format_message "json")).
Proof.
  apply (invalid_format_reported_first
           (with_format "json" (with_table "a b" sample_table)));
    discriminate.
Defined.

(** X4.  The JSON schema, the owner group and the partition columns are
    not looked at by the constructor: replacing any of them changes
    neither whether construction succeeds nor the error it raises. *)
Theorem unvalidated_fields_ignored (t : BaseTable)
    (j : option (list (string * PyValue))) (o : option string) (p : PyValue) :
  snd (__post_init__ (with_json_schema j t)) = snd (__post_init__ t)
  /\ snd (__post_init__ (with_owner_group o t)) = snd (__post_init__ t)
  /\ snd (__post_init__ (with_partition_columns p t)) = snd (__post_init__ t)
  /\ (constructed (with_json_schema j t) <-> constructed t).
Proof.
  assert (H : forall t1 t2,
            format t1 = format t2 -> database t1 = database t2 ->
            catalog t1 = catalog t2 -> table t1 = table t2 ->
            write_mode t1 = write_mode t2 ->
            dataframe_type t1 = dataframe_type t2 ->
            snd (__post_init__ t1) = snd (__post_init__ t2)).
  { intros t1 t2 Hf Hd Hc Ht Hw Hy. unfold __post_init__.
    cbv [__dataclass_fields__ run_validators BaseTable_methods assoc
         String.append String.eqb Ascii.eqb Bool.eqb].
    unfold _validate_format, _validate_database, _validate_catalog,
      _validate_table, _validate_write_mode, _validate_dataframe_type.
    rewrite Hf, Hd, Hc, Ht, Hw, Hy. reflexivity. }
  repeat split; try (apply H; reflexivity).
  - unfold constructed, BaseTable_new.
    rewrite (H (with_json_schema j t) t) by reflexivity.
    destruct (snd (__post_init__ t)); [discriminate | reflexivity].
  - unfold constructed, BaseTable_new.
    rewrite (H (with_json_schema j t) t) by reflexivity.
    destruct (snd (__post_init__ t)); [discriminate | reflexivity].
Qed.

(** X5.  An empty catalog string counts as no catalog: it is not matched
    against the naming pattern, and the qualified location is the
    two-part name, as for a null catalog. *)
Theorem empty_catalog_is_unset (t : BaseTable) :
  _validate_catalog (with_catalog (Some EmptyString) t) = inr tt
  /\ snd (__post_init__ (with_catalog (Some EmptyString) t))
     = snd (__post_init__ (with_catalog None t))
  /\ full_table_location (with_catalog (Some EmptyString) t)
     = full_table_location (with_catalog None t).
Proof.
  split; [reflexivity|]. split; [|reflexivity].
  unfold __post_init__.
  cbv [__dataclass_fields__ run_validators BaseTable_methods assoc
       String.append String.eqb Ascii.eqb Bool.eqb].
  reflexivity.
Qed.

Lemma all_chars_excludes (cls : ascii -> bool) (c : ascii) (s : string) :
  cls c = false -> all_chars cls s = true -> contains_char c s = false.
Proof.
  intros Hc Ha. destruct (contains_char c s) eqn:E; [|reflexivity].
  rewrite (all_chars_contains cls c s Hc E) in Ha. discriminate.
Qed.

(** X6.  The names of a constructed descriptor hold only characters of
    [[0-9a-zA-Z_-]]: no character outside that class (a backtick, a quote,
    a dot, a space, a semicolon) occurs in the database, the table or the
    catalog, so the quoting of the location and of the queries cannot be
    broken by a name. *)
Theorem constructed_names_plain (t : BaseTable) (ch : ascii) :
  constructed t -> naming_class ch = false ->
  contains_char ch (database t) = false
  /\ contains_char ch (table t) = false
  /\ (forall c, catalog t = Some c -> contains_char ch c = false).
Proof.
  intros H Hch. pose proof (constructed_names t H) as [Hd Ht].
  apply constructed_inv in H as (_ & _ & _ & Hc & _).
  split; [|split].
  - apply (all_chars_excludes naming_class); auto using conforms_all_chars.
  - apply (all_chars_excludes naming_class); auto using conforms_all_chars.
  - intros c Ec. destruct c as [|a c]; [reflexivity|].
    apply (all_chars_excludes naming_class); [exact Hch|].
    apply conforms_all_chars.
    apply (proj1 (validate_catalog_passes t) Hc _ Ec). discriminate.
Qed.

Lemma constructed_names_plain_witness :
  contains_char "`"%char (database sample_table) = false
  /\ contains_char "`"%char (table sample_table) = false
  /\ (forall c, catalog sample_table = Some c ->
        contains_char "`"%char c = false).
Proof.
  apply (constructed_names_plain sample_table "`"%char);
    vm_compute; reflexivity.
Defined.

(** * Further properties of the gateway *)

(** ** What [save] does to the world *)

Ltac case_prepare E self data :=
  unfold prepare, loc, select, create_native; unfold_monad;
  destruct data as [[|] ?f];
  destruct (schema E (_table self)) as [?e|[?st|]];
  cbn [schema_truthy kind frame];
  try destruct (fields _) eqn:?;
  destruct (String.eqb_spec (dataframe_type (_table self)) "pandas");
  cbn [fst snd session calls warnings];
  try destruct (pandas_loc _ _) eqn:?;
  try destruct (spark_select _ _) eqn:?;
  cbn [fst snd session calls warnings];
  try destruct (createDataFrame _ _) eqn:?;
  cbn [fst snd session calls warnings].

(** The steps before the dispatch touch neither the session nor the
    warnings, and make no table write. *)
Lemma prepare_effects (E : Engine) (self : BaseTableDataset)
    (data : DataFrame) (w : World E) :
  session (snd (prepare E self data w)) = session w
  /\ warnings (snd (prepare E self data w)) = warnings w
  /\ exists cs, calls (snd (prepare E self data w)) = calls w ++ cs
                /\ table_writes cs = [].
Proof.
  case_prepare E self data;
    (split; [reflexivity|]); (split; [reflexivity|]);
    rewrite <- ?app_assoc;
    first [ exists []; split; [now rewrite app_nil_r | reflexivity]
          | eexists; split; [reflexivity | reflexivity] ].
Qed.


Lemma save_overwrite_pandas (E : Engine) (self : BaseTableDataset)
    (f : Frame) (w : World E) :
  _save_overwrite E self {| kind := PandasKind; frame := f |} w
  = (inl (AttributeError "'DataFrame' object has no attribute 'write'"), w).
Proof. reflexivity. Qed.

Lemma save_append_pandas (E : Engine) (self : BaseTableDataset)
    (f : Frame) (w : World E) :
  _save_append E self {| kind := PandasKind; frame := f |} w
  = (inl (AttributeError "'DataFrame' object has no attribute 'write'"), w).
Proof. reflexivity. Qed.

Lemma save_steps (E : Engine) (self : BaseTableDataset) (m : string)
    (data : DataFrame) (w : World E) :
  write_mode (_table self) = Some m ->
  _save E self data w
  = match prepare E self data w with
    | (inl e, w1) => (inl e, w1)
    | (inr d, w1) => dispatch E self m d w1
    end.
Proof.
  intros Hm. unfold _save. rewrite Hm. unfold bind.
  now destruct (prepare E self data w) as [[e|d] w1].
Qed.

Lemma dispatch_unknown (E : Engine) (self : BaseTableDataset) (m : string)
    (d : DataFrame) (w : World E) :
  m <> "append" -> m <> "overwrite" ->
  dispatch E self m d w
  = (inl (DatasetError (unsupported_write_mode_message m)), w).
Proof.
  intros H1 H2. unfold dispatch.
  rewrite (proj2 (save_method_exists_iff E m) (conj H1 H2)). reflexivity.
Qed.

(** X7.  One call of [save] makes at most one table write, and that
    write is the last thing it does, at the qualified location; when it
    makes none, the engine session is left as it was.  It never logs a
    warning. *)
Theorem save_writes_at_most_once (E : Engine) (self : BaseTableDataset)
    (data : DataFrame) (w : World E) :
  warnings (snd (_save E self data w)) = warnings w
  /\ exists cs,
       calls (snd (_save E self data w)) = calls w ++ cs
       /\ ((table_writes cs = []
            /\ session (snd (_save E self data w)) = session w)
           \/ exists pre wr f,
                cs = pre ++ [CallSaveAsTable wr
                               (or_empty (full_table_location (_table self))) f]
                /\ table_writes pre = []).
Proof.
  destruct (write_mode (_table self)) as [m|] eqn:Hm.
  2:{ unfold _save. rewrite Hm. cbn. split; [reflexivity|].
      exists []. split; [now rewrite app_nil_r | now left]. }
  rewrite (save_steps E self m data w Hm).
  destruct (prepare_effects E self data w) as (Hs & Hw & cs & Hc & Hn).
  destruct (prepare E self data w) as [[e|d] w1]; cbn [snd] in *.
  - split; [exact Hw|]. exists cs. split; [exact Hc | now left].
  - destruct (String.eqb_spec m "append") as [->|Ha];
      [|destruct (String.eqb_spec m "overwrite") as [->|Ho]].
    + rewrite dispatch_append. destruct d as [[|] f].
      * rewrite save_append_spark. cbn [snd after_call warnings calls].
        split; [exact Hw|]. eexists. split; [now rewrite Hc, <- app_assoc|].
        right. eauto.
      * rewrite save_append_pandas. cbn [snd].
        split; [exact Hw|]. exists cs. split; [exact Hc | now left].
    + rewrite dispatch_overwrite. destruct d as [[|] f].
      * rewrite save_overwrite_spark by exact Hm.
        cbn [snd after_call warnings calls].
        split; [exact Hw|]. eexists. split; [now rewrite Hc, <- app_assoc|].
        right. eauto.
      * rewrite save_overwrite_pandas. cbn [snd].
        split; [exact Hw|]. exists cs. split; [exact Hc | now left].
    + rewrite dispatch_unknown by assumption. cbn [snd].
      split; [exact Hw|]. exists cs. split; [exact Hc | now left].
Qed.

(** X8.  On a gateway whose dataframe type is not pandas and that has no
    schema, [save] of a native dataframe makes one call only, the table
    write of the dataframe as given: in append mode with no option for
    write mode append, in overwrite mode with [overwriteSchema] set for
    write mode overwrite.  Its outcome is the outcome of the write. *)
Theorem spark_save_without_schema (E : Engine) (self : BaseTableDataset)
    (f : Frame) (w : World E) :
  dataframe_type (_table self) <> "pandas" ->
  json_schema (_table self) = None ->
  (write_mode (_table self) = Some "append" ->
   _save E self {| kind := SparkKind; frame := f |} w
   = (engine_result
        (fst (spark_saveAsTable E (append_writer (_table self))
                (or_empty (full_table_location (_table self))) f (session w))),
      after_call w
        [CallSaveAsTable (append_writer (_table self))
           (or_empty (full_table_location (_table self))) f]
        (snd (spark_saveAsTable E (append_writer (_table self))
                (or_empty (full_table_location (_table self))) f (session w)))))
  /\ (write_mode (_table self) = Some "overwrite" ->
      _save E self {| kind := SparkKind; frame := f |} w
      = (engine_result
           (fst (spark_saveAsTable E (overwrite_writer (_table self))
                   (or_empty (full_table_location (_table self))) f (session w))),
         after_call w
           [CallSaveAsTable (overwrite_writer (_table self))
              (or_empty (full_table_location (_table self))) f]
           (snd (spark_saveAsTable E (overwrite_writer (_table self))
                   (or_empty (full_table_location (_table self))) f (session w))))).
Proof.
  intros Hd Hj.
  assert (Hp : prepare E self {| kind := SparkKind; frame := f |} w
               = (inr {| kind := SparkKind; frame := f |}, w)).
  { unfold prepare, schema. rewrite Hj.
    destruct (String.eqb_spec (dataframe_type (_table self)) "pandas");
      [contradiction | reflexivity]. }
  split; intros Hm; rewrite (save_steps E self _ _ w Hm), Hp.
  - rewrite dispatch_append. apply save_append_spark.
  - rewrite dispatch_overwrite. now apply save_overwrite_spark.
Qed.

Lemma spark_save_without_schema_witness :
  calls (snd (_save reading_engine
                (dataset_of (with_write_mode (Some "append") sample_table))
                {| kind := SparkKind; frame := orders_frame |}
                (fresh_world reading_engine [])))
  = [CallSaveAsTable
       {| w_format := Some "delta"; w_mode := Some "append"; w_options := [] |}
       "`c`.`d`.`t`" orders_frame].
Proof.
  rewrite (proj1 (spark_save_without_schema reading_engine
                    (dataset_of (with_write_mode (Some "append") sample_table))
                    orders_frame (fresh_world reading_engine [])
                    ltac:(discriminate) eq_refl) eq_refl).
  reflexivity.
Defined.

(** X9.  A write mode for which this class has no handler (a descriptor
    of a richer tier, say ["upsert"]) is rejected only after the data was
    prepared: [save] first decodes the schema, projects and builds the
    native dataframe, then raises the unsupported-write-mode error; no
    table write is made and the session is untouched. *)
Theorem unsupported_mode_rejected_after_preparation
    (E : Engine) (self : BaseTableDataset) (m : string)
    (data : DataFrame) (w : World E) :
  write_mode (_table self) = Some m -> m <> "append" -> m <> "overwrite" ->
  _save E self data w
  = match prepare E self data w with
    | (inl e, w1) => (inl e, w1)
    | (inr d, w1) =>
        (inl (DatasetError (unsupported_write_mode_message m)), w1)
    end
  /\ session (snd (_save E self data w)) = session w
  /\ table_writes (calls (snd (_save E self data w))) = table_writes (calls w).
Proof.
  intros Hm Ha Ho.
  assert (Heq : _save E self data w
                = match prepare E self data w with
                  | (inl e, w1) => (inl e, w1)
                  | (inr d, w1) =>
                      (inl (DatasetError (unsupported_write_mode_message m)), w1)
                  end).
  { rewrite (save_steps E self m data w Hm).
    destruct (prepare E self data w) as [[e|d] w1]; [reflexivity|].
    now apply dispatch_unknown. }
  split; [exact Heq|]. rewrite Heq.
  destruct (prepare_effects E self data w) as (Hs & _ & cs & Hc & Hn).
  destruct (prepare E self data w) as [[e|d] w1]; cbn [snd] in *;
    (split; [exact Hs|]); rewrite Hc; unfold table_writes in *;
    now rewrite List.filter_app, Hn, app_nil_r.
Qed.

Lemma unsupported_mode_rejected_after_preparation_witness :
  _save reading_engine
    (dataset_of (with_dataframe_type "pandas"
                   (with_write_mode (Some "upsert") sample_table)))
    {| kind := PandasKind; frame := orders_frame |}
    (fresh_world reading_engine [])
  = (inl (DatasetError (unsupported_write_mode_message "upsert")),
     after_call (fresh_world reading_engine [])
       [CallCreateDataFrame orders_frame None] []).
Proof.
  rewrite (proj1 (unsupported_mode_rejected_after_preparation reading_engine
                    (dataset_of (with_dataframe_type "pandas"
                                   (with_write_mode (Some "upsert") sample_table)))
                    "upsert" {| kind := PandasKind; frame := orders_frame |}
                    (fresh_world reading_engine [])
                    eq_refl ltac:(discriminate) ltac:(discriminate))).
  reflexivity.
Defined.



(** ** Schemas at the edges *)








(** ** Queries made by the existence check *)

Lemma find_table_world (E : Engine) (self : BaseTableDataset) (w : World E) :
  snd (find_table E self w)
  = {| session := snd (spark_sql E (show_tables_query (database (_table self)))
                         (session w));
       calls := calls w ++ [CallSql (show_tables_query (database (_table self)))];
       warnings := warnings w
                   ++ caught_warning table_warning
                        (fst (spark_sql E
                                (show_tables_query (database (_table self)))
                                (session w))) |}.
Proof.
  unfold find_table, sql. unfold_monad. cbn [session calls warnings].
  destruct (spark_sql E _ (session w)) as [[[m|m|m]|rows] s1];
    cbn [fst snd parse_or_analysis caught_warning session calls warnings];
    rewrite ?app_nil_r; reflexivity.
Qed.

Lemma switch_catalog_world (E : Engine) (self : BaseTableDataset)
    (c : string) (w : World E) :
  catalog (_table self) = Some c -> c <> EmptyString ->
  switch_catalog E self w
  = (match fst (spark_sql E (use_catalog_query c) (session w)) with
     | inl (EngineFailure m) => inl (EngineExn (EngineFailure m))
     | _ => inr tt
     end,
     {| session := snd (spark_sql E (use_catalog_query c) (session w));
        calls := calls w ++ [CallSql (use_catalog_query c)];
        warnings := warnings w
                    ++ caught_warning (catalog_warning c)
                         (fst (spark_sql E (use_catalog_query c) (session w))) |}).
Proof.
  intros Hc Hne. unfold switch_catalog. rewrite Hc.
  destruct c as [|a c]; [congruence|]. cbn [truthy].
  unfold sql. unfold_monad. cbn [session calls warnings].
  destruct (spark_sql E _ (session w)) as [[[m|m|m]|rows] s1];
    cbn [fst snd parse_or_analysis caught_warning session calls warnings];
    rewrite ?app_nil_r; reflexivity.
Qed.

(** X13.  The engine calls of [exists].  Without a catalog (null or
    empty) it makes one query, the table listing of the configured
    database.  With a catalog it first makes the catalog switch; unless
    that fails with an error it does not catch, the listing follows in the
    session the switch left, and nothing is called after it (the catalog
    is not switched back).  One warning is logged per caught error, none
    when both queries succeed. *)
Theorem exists_queries (E : Engine) (self : BaseTableDataset) (w : World E) :
  (truthy_opt (catalog (_table self)) = false ->
   snd (_exists E self w)
   = {| session := snd (spark_sql E (show_tables_query (database (_table self)))
                          (session w));
        calls := calls w ++ [CallSql (show_tables_query (database (_table self)))];
        warnings := warnings w
                    ++ caught_warning table_warning
                         (fst (spark_sql E
                                 (show_tables_query (database (_table self)))
                                 (session w))) |})
  /\ (forall c r1 s1,
        catalog (_table self) = Some c -> c <> EmptyString ->
        spark_sql E (use_catalog_query c) (session w) = (r1, s1) ->
        (is_engine_failure r1 = true ->
         snd (_exists E self w)
         = {| session := s1;
              calls := calls w ++ [CallSql (use_catalog_query c)];
              warnings := warnings w |})
        /\ (is_engine_failure r1 = false ->
            snd (_exists E self w)
            = {| session :=
                   snd (spark_sql E (show_tables_query (database (_table self))) s1);
                 calls := calls w
                          ++ [CallSql (use_catalog_query c);
                              CallSql (show_tables_query (database (_table self)))];
                 warnings :=
                   warnings w
                   ++ caught_warning (catalog_warning c) r1
                   ++ caught_warning table_warning
                        (fst (spark_sql E
                                (show_tables_query (database (_table self)))
                                s1)) |})).
Proof.
  split.
  - intros Hc. unfold _exists. unfold bind at 1.
    assert (Hs : switch_catalog E self w = (inr tt, w)).
    { unfold switch_catalog. destruct (catalog (_table self)) as [c|];
        [cbn in Hc; now rewrite Hc | reflexivity]. }
    rewrite Hs. apply find_table_world.
  - intros c r1 s1 Hc Hne Hq. unfold _exists. unfold bind at 1 2.
    rewrite (switch_catalog_world E self c w Hc Hne), Hq. cbn [fst snd].
    split; intros Hf.
    + destruct r1 as [[m|m|m]|rows]; try discriminate.
      cbn [snd caught_warning]. now rewrite app_nil_r.
    + destruct r1 as [[m|m|m]|rows]; try discriminate;
        rewrite find_table_world;
        cbn [session calls warnings]; now rewrite <- !app_assoc.
Qed.

Lemma exists_queries_witness :
  snd (_exists no_unity_engine (dataset_of sample_table)
         (fresh_world no_unity_engine []))
  = Build_World no_unity_engine []
      [CallSql "USE CATALOG `c`"; CallSql "SHOW TABLES IN `d`"]
      [catalog_warning "c" (EngineExn (AnalysisException "catalog not found"))].
Proof.
  rewrite (proj2 (proj2 (exists_queries no_unity_engine (dataset_of sample_table)
                           (fresh_world no_unity_engine []))
                    "c" (inl (AnalysisException "catalog not found")) []
                    eq_refl ltac:(discriminate) eq_refl) eq_refl).
  reflexivity.
Defined.

(** ** What [load] and [exists] do not depend on *)

(** X14.  [load] and [exists] look only at the catalog, the database,
    the table and (for [load]) the dataframe type: two gateways that
    agree on those behave alike, whatever their write mode, format,
    schema, bag and metadata.  A read-only gateway, or one with a
    malformed schema, loads and checks existence like any other. *)
Theorem load_exists_ignore_write_settings (E : Engine)
    (self self' : BaseTableDataset) (w : World E) :
  catalog (_table self) = catalog (_table self') ->
  database (_table self) = database (_table self') ->
  table (_table self) = table (_table self') ->
  (_exists E self w = _exists E self' w)
  /\ (dataframe_type (_table self) = dataframe_type (_table self') ->
      _load E self w = _load E self' w).
Proof.
  intros Hc Hd Ht. split.
  - unfold _exists, switch_catalog, find_table. now rewrite Hc, Hd, Ht.
  - intros Hy. unfold _load, full_table_location. now rewrite Hc, Hd, Ht, Hy.
Qed.

Lemma load_exists_ignore_write_settings_witness :
  _exists reading_engine
    (gateway (with_json_schema (Some []) (with_write_mode None sample_table))
       PyNone {[ "version" := PyStr "1" ]})
    (fresh_world reading_engine [])
  = _exists reading_engine (dataset_of sample_table)
      (fresh_world reading_engine []).
Proof.
  apply (load_exists_ignore_write_settings reading_engine
           (gateway (with_json_schema (Some []) (with_write_mode None sample_table))
              PyNone {[ "version" := PyStr "1" ]})
           (dataset_of sample_table) (fresh_world reading_engine []));
    reflexivity.
Defined.

(** ** Keys of the description *)

(** X15.  The keys of the mapping [describe] returns are the seven fixed
    keys together with the keys of the bag: the fixed keys are always
    there, and no key comes from anywhere else (the metadata and the
    format are not reported unless the bag holds them). *)
Theorem describe_keys (self : BaseTableDataset) :
  dom (_describe self) = dom (kwargs self) ∪ list_to_set fixed_keys
  /\ (forall k, In k fixed_keys -> is_Some (_describe self !! k)).
Proof.
  assert (Hd : dom (_describe self) = dom (kwargs self) ∪ list_to_set fixed_keys).
  { unfold _describe. rewrite dom_union_L, dom_list_to_map_L. reflexivity. }
  split; [exact Hd|].
  intros k Hk. apply elem_of_dom. rewrite Hd. apply elem_of_union. right.
  apply elem_of_list_to_set, list_elem_of_In, Hk.
Qed.

(** ** Decoding the schema *)

Lemma collect_decodable (E : Engine) (js : list PyValue) (names : list string) :
  Forall2 (decodable_field E) js names ->
  exists fs, collect (StructField_fromJson E) js = inr fs
             /\ map name fs = names.
Proof.
  induction 1
    as [|j n js names (d & ty & dt & nb & md & -> & Hn & Ht & Hp & Hb & Hd) _ IH].
  - exists []. split; reflexivity.
  - destruct IH as (fs & Hc & Hm).
    cbn [collect]. unfold StructField_fromJson at 1.
    rewrite Hn, Ht, Hp, Hb, Hd, Hc. eexists. split; [reflexivity|].
    cbn [map name]. now rewrite Hm.
Qed.

(** X16.  [schema] returns null exactly when no JSON schema was given.
    A [KeyError] or [ValueError] of the decoding never leaves it: each is
    turned into a [DatasetError] carrying its text, so a schema without
    ["fields"] gives [DatasetError "'fields'"]. *)
Theorem schema_wraps_decoding_errors (E : Engine) (t : BaseTable) :
  (schema E t = inr None <-> json_schema t = None)
  /\ (forall k, schema E t <> inl (KeyError k))
  /\ (forall m, schema E t <> inl (ValueError m))
  /\ (forall json e,
        json_schema t = Some json -> StructType_fromJson E json = inl e ->
        (forall k, e = KeyError k ->
           schema E t = inl (DatasetError ("'" +:+ k +:+ "'")))
        /\ (forall m, e = ValueError m -> schema E t = inl (DatasetError m)))
  /\ (forall json,
        json_schema t = Some json -> assoc "fields" json = None ->
        schema E t = inl (DatasetError "'fields'")).
Proof.
  unfold schema. destruct (json_schema t) as [json|].
  2:{ split; [split; reflexivity|]. split; [discriminate|].
      split; [discriminate|]. split; discriminate. }
  assert (Hsome : forall json' : list (string * PyValue),
            Some json = Some json' -> json' = json) by (intros ? [=]; auto).
  destruct (StructType_fromJson E json) as [e|st] eqn:Ej.
  - split; [split; [destruct e|]; discriminate|].
    split; [intros k; destruct e; discriminate|].
    split; [intros m; destruct e; discriminate|].
    split.
    + intros json' e' Hj He'. apply Hsome in Hj. subst json'.
      rewrite Ej in He'. injection He' as <-.
      split; intros ? ->; reflexivity.
    + intros json' Hj Hf. apply Hsome in Hj. subst json'.
      unfold StructType_fromJson in Ej. rewrite Hf in Ej.
      injection Ej as <-. reflexivity.
  - split; [split; discriminate|].
    split; [discriminate|]. split; [discriminate|]. split.
    + intros json' e' Hj He'. apply Hsome in Hj. subst json'.
      rewrite Ej in He'. discriminate.
    + intros json' Hj Hf. apply Hsome in Hj. subst json'.
      unfold StructType_fromJson in Ej. rewrite Hf in Ej. discriminate.
Qed.

Lemma schema_wraps_decoding_errors_witness :
  schema reading_engine (with_json_schema (Some nameless_schema) sample_table)
  = inl (DatasetError "'name'").
Proof.
  apply (proj1 (proj1 (proj2 (proj2 (proj2 (schema_wraps_decoding_errors
           reading_engine
           (with_json_schema (Some nameless_schema) sample_table)))))
           nameless_schema (KeyError "name") eq_refl eq_refl)
           "name" eq_refl).
Defined.

(** X17.  A JSON schema whose ["fields"] entry is a list of field
    descriptions, each a mapping with a string ["name"], a ["type"] the
    engine can decode, a ["nullable"] and a ["metadata"] entry, decodes
    to a schema whose field names are those names, in the order of the
    list. *)
Theorem schema_decodes_field_names (E : Engine) (t : BaseTable)
    (json : list (string * PyValue)) (js : list PyValue)
    (names : list string) :
  json_schema t = Some json ->
  assoc "fields" json = Some (PyList js) ->
  Forall2 (decodable_field E) js names ->
  exists st, schema E t = inr (Some st) /\ fieldNames st = names.
Proof.
  intros Hj Hf Hd. destruct (collect_decodable E js names Hd) as (fs & Hc & Hn).
  exists {| fields := fs |}. unfold schema, StructType_fromJson.
  rewrite Hj, Hf, Hc. split; [reflexivity | exact Hn].
Qed.

Lemma schema_decodes_field_names_witness :
  exists st,
    schema reading_engine (with_json_schema (Some ab_schema) sample_table)
    = inr (Some st)
    /\ fieldNames st = ["a"; "b"].
Proof.
  apply (schema_decodes_field_names reading_engine
           (with_json_schema (Some ab_schema) sample_table) ab_schema
           [PyDict [("name", PyStr "a"); ("type", PyStr "long");
                    ("nullable", PyBool true); ("metadata", PyDict [])];
            PyDict [("name", PyStr "b"); ("type", PyStr "long");
                    ("nullable", PyBool true); ("metadata", PyDict [])]]
           ["a"; "b"] eq_refl eq_refl).
  repeat constructor;
    (eexists _, (PyStr "long"), (SparkType "long"), (PyBool true), (PyDict []);
     repeat split; reflexivity).
Defined.

(** ** One location for reading and writing *)

Lemma load_first_call (E : Engine) (self : BaseTableDataset) (w : World E) :
  exists cs,
    calls (snd (_load E self w))
    = calls w ++ CallTable (full_table_location (_table self)) :: cs.
Proof.
  unfold _load, read_table, toPandas. unfold_monad.
  cbn [session calls warnings].
  destruct (spark_table E _ (session w)) as [[e|f] s1];
    cbn [fst snd calls]; [exists []; reflexivity|].
  destruct (String.eqb (dataframe_type (_table self)) "pandas");
    cbn [kind fst snd calls]; [|exists []; reflexivity].
  exists [CallToPandas]. now rewrite <- app_assoc.
Qed.

(** X18.  On a constructed descriptor the qualified location is a
    non-empty string, so the empty-string fallback of the handlers is
    never used: a table write of [save] goes to the very location
    [load] reads from. *)
Theorem save_and_load_share_location (E : Engine) (self : BaseTableDataset)
    (w : World E) :
  constructed (_table self) ->
  exists loc,
    loc <> EmptyString
    /\ full_table_location (_table self) = Some loc
    /\ or_empty (full_table_location (_table self)) = loc
    /\ exists cs,
         calls (snd (_load E self w)) = calls w ++ CallTable (Some loc) :: cs.
Proof.
  intros H. apply constructed_names in H as [Hd Ht].
  apply conforms_truthy in Hd, Ht.
  destruct (load_first_call E self w) as [cs Hcs]. revert Hcs.
  unfold full_table_location. rewrite Hd, Ht.
  destruct (catalog (_table self)) as [[|a c]|]; cbn [truthy andb or_empty];
    intros Hcs; eexists; (split; [|split; [reflexivity|split; [reflexivity|]]]);
    solve [discriminate | exists cs; exact Hcs].
Qed.

Lemma save_and_load_share_location_witness :
  exists loc,
    loc <> EmptyString
    /\ full_table_location sample_table = Some loc
    /\ or_empty (full_table_location sample_table) = loc
    /\ exists cs,
         calls (snd (_load reading_engine (dataset_of sample_table)
                       (fresh_world reading_engine [])))
         = CallTable (Some loc) :: cs.
Proof.
  apply (save_and_load_share_location reading_engine (dataset_of sample_table)
           (fresh_world reading_engine [])).
  vm_compute. reflexivity.
Defined.

(** ** Instances *)

Lemma constructor_accepts_iff_witness :
  satisfies_rules sample_table.
Proof.
  apply (proj1 (proj1 (constructor_accepts_iff sample_table))).
  vm_compute. reflexivity.
Defined.

Lemma describe_keys_witness :
  is_Some (_describe shadowing_dataset !! "owner_group").
Proof.
  apply (proj2 (describe_keys shadowing_dataset)). cbn. tauto.
Defined.
